(** * TP-Link Kasa control scripts: codec, transport, discovery, facade, CLI

    A shallow embedding of [tplink_protocol.py], [kasa_controller.py] and
    [kasa_api.py].  Python text is a list of code points, [bytes] is a list of
    [Byte.byte], exceptions are an explicit result type, and the network and
    the clock are oracles that the functions consult in the order in which
    the Python code performs its calls. *)

From Stdlib Require Import NArith ZArith QArith List String Ascii Bool Lia.
From Stdlib Require Strings.Byte.
From stdpp Require Import gmap strings pretty.

Close Scope Q_scope.
Open Scope N_scope.
Set Warnings "-register-all".

(** ** Python values and exceptions *)

(** A Python [str]: its code points, in order. *)
Definition char := N.
Definition pystr := list char.
Definition bytes := list Byte.byte.

Definition ord (c : char) : N := c.

(** Text of a source literal as a Python [str]. *)
Definition pystr_of_string (s : string) : pystr :=
  map N_of_ascii (list_ascii_of_string s).

(** The subclasses of [Exception] that the three modules can meet.  Each one
    carries [str(e)]. *)
Inductive exception :=
| SocketTimeout (msg : string)    (* socket.timeout, a subclass of OSError *)
| OSError (msg : string)          (* socket.error is OSError *)
| JSONDecodeError (msg : string)  (* a subclass of ValueError *)
| ValueError (msg : string)
| StructError (msg : string)      (* struct.error *)
| TypeError (msg : string)
| KeyError (msg : string)
| OtherError (msg : string).      (* any other subclass of Exception *)

Definition str_exn (e : exception) : string :=
  match e with
  | SocketTimeout m | OSError m | JSONDecodeError m | ValueError m
  | StructError m | TypeError m | KeyError m | OtherError m => m
  end.

(** [except socket.timeout], [except socket.error] (OSError and its
    subclasses), [except json.JSONDecodeError], [except KeyError]. *)
Definition is_socket_timeout (e : exception) : bool :=
  match e with SocketTimeout _ => true | _ => false end.
Definition is_OSError (e : exception) : bool :=
  match e with SocketTimeout _ | OSError _ => true | _ => false end.
Definition is_JSONDecodeError (e : exception) : bool :=
  match e with JSONDecodeError _ => true | _ => false end.
Definition is_KeyError (e : exception) : bool :=
  match e with KeyError _ => true | _ => false end.

(** A JSON number with a fraction or an exponent is a Python [float]; a finite
    one is the rational it denotes. *)
Inductive pyfloat :=
| Finite (q : Q)
| Infinity (negative : bool)
| NaN.

(** The Python values [json.loads] produces and [json.dumps] accepts.  A
    [dict] keeps its items in insertion order. *)
Inductive value :=
| VNone
| VBool (b : bool)
| VInt (z : Z)
| VFloat (f : pyfloat)
| VStr (s : string)
| VList (l : list value)
| VDict (d : list (string * value)).

Inductive pyresult (A : Type) :=
| Ok (a : A)
| Raise (e : exception).
Arguments Ok {A} a.
Arguments Raise {A} e.

Definition bind {A B} (m : pyresult A) (k : A -> pyresult B) : pyresult B :=
  match m with
  | Ok a => k a
  | Raise e => Raise e
  end.

Notation "'let!' x ':=' m 'in' k" := (bind m (fun x => k))
  (at level 10, x name, m at level 100, k at level 200).

(** ** tplink_protocol.py: the codec *)

Module Codec.

Definition len {A} (l : list A) : N := N.of_nat (length l).

(** One byte of an unsigned number, as [struct.pack] writes it. *)
Definition byte_of (n : N) : Byte.byte :=
  match Byte.of_N (n mod 256) with
  | Some b => b
  | None => Byte.x00
  end.

(** [pack(">I", n)]: four bytes, most significant first; [struct.error]
    outside the range of an unsigned 32-bit number. *)
Definition pack_I (n : N) : pyresult bytes :=
  if n <? 2 ^ 32
  then Ok [byte_of (n / 2 ^ 24); byte_of (n / 2 ^ 16); byte_of (n / 2 ^ 8); byte_of n]
  else Raise (StructError "'I' format requires 0 <= number <= 4294967295").

(** [chr(a)] *)
Definition chr (a : N) : pyresult char :=
  if a <? 1114112 then Ok a
  else Raise (ValueError "chr() arg not in range(0x110000)").

(** The body of the [for char in string] loop of [encrypt], with the two
    variables [key] and [result] it updates.  [bytes([a])] raises
    [ValueError] when [a] is not in [range(256)]. *)
Fixpoint encrypt_loop (key : N) (result : bytes) (string : pystr) : pyresult bytes :=
  match string with
  | [] => Ok result
  | char :: rest =>
      let a := N.lxor key (ord char) in
      match Byte.of_N a with
      | Some b => encrypt_loop a (result ++ [b]) rest
      | None => Raise (ValueError "bytes must be in range(0, 256)")
      end
  end.

Definition encrypt (string : pystr) : pyresult bytes :=
  let! header := pack_I (len string) in
  encrypt_loop 171 header string.

(** The [for byte in data] loop of [decrypt]. *)
Fixpoint decrypt_loop (key : N) (result : pystr) (data : bytes) : pyresult pystr :=
  match data with
  | [] => Ok result
  | byte :: rest =>
      let a := N.lxor key (Byte.to_N byte) in
      let! c := chr a in
      decrypt_loop (Byte.to_N byte) (result ++ [c]) rest
  end.

Definition decrypt (data : bytes) : pyresult pystr :=
  decrypt_loop 171 [] data.

(** Reading of a big-endian unsigned number (what [unpack(">I", _)] does on
    four bytes); used to state what the header says. *)
Definition be_value (bs : bytes) : N :=
  fold_left (fun acc b => acc * 256 + Byte.to_N b) bs 0.

(** A character that fits in one byte. *)
Definition latin1 (c : char) : Prop := c <= 255.

End Codec.

(** ** Operations on Python values *)

Module Py.

Fixpoint dict_lookup (key : string) (d : list (string * value)) : option value :=
  match d with
  | [] => None
  | (k, v) :: rest => if String.eqb key k then Some v else dict_lookup key rest
  end.

(** [s in t] on two [str]: [s] occurs in [t]. *)
Fixpoint occurs_in (s t : string) : bool :=
  String.prefix s t ||
  match t with
  | EmptyString => false
  | String _ t' => occurs_in s t'
  end.

Definition is_str (s : string) (v : value) : bool :=
  match v with VStr t => String.eqb s t | _ => false end.

(** [key in obj] for a [str] key. *)
Definition contains (obj : value) (key : string) : pyresult bool :=
  match obj with
  | VDict d => Ok (match dict_lookup key d with Some _ => true | None => false end)
  | VList l => Ok (existsb (is_str key) l)
  | VStr t => Ok (occurs_in key t)
  | VNone => Raise (TypeError "argument of type 'NoneType' is not iterable")
  | VBool _ => Raise (TypeError "argument of type 'bool' is not iterable")
  | VInt _ => Raise (TypeError "argument of type 'int' is not iterable")
  | VFloat _ => Raise (TypeError "argument of type 'float' is not iterable")
  end.

(** [obj[key]] for a [str] key; [str(KeyError(key))] is the [repr] of the
    key. *)
Definition subscript (obj : value) (key : string) : pyresult value :=
  match obj with
  | VDict d =>
      match dict_lookup key d with
      | Some v => Ok v
      | None => Raise (KeyError ("'" +:+ key +:+ "'"))
      end
  | VList _ => Raise (TypeError "list indices must be integers or slices, not str")
  | VStr _ => Raise (TypeError "string indices must be integers")
  | VNone => Raise (TypeError "'NoneType' object is not subscriptable")
  | VBool _ => Raise (TypeError "'bool' object is not subscriptable")
  | VInt _ => Raise (TypeError "'int' object is not subscriptable")
  | VFloat _ => Raise (TypeError "'float' object is not subscriptable")
  end.

(** [obj.get(key)] *)
Definition get (obj : value) (key : string) : pyresult value :=
  match obj with
  | VDict d => Ok (match dict_lookup key d with Some v => v | None => VNone end)
  | _ => Raise (OtherError "object has no attribute 'get'")
  end.

(** [v == 1]: numbers compare by value and [True] is the number 1. *)
Definition eq_one (v : value) : bool :=
  match v with
  | VInt z => Z.eqb z 1
  | VBool b => b
  | VFloat (Finite q) => Qeq_bool q 1
  | _ => false
  end.

(** [s.lower()], on the letters A-Z. *)
Definition lower_ascii (a : ascii) : ascii :=
  let n := nat_of_ascii a in
  if (Nat.leb 65 n && Nat.leb n 90)%bool then ascii_of_nat (n + 32)%nat else a.

Fixpoint lower (s : string) : string :=
  match s with
  | EmptyString => EmptyString
  | String a s' => String (lower_ascii a) (lower s')
  end.

Definition error_dict (msg : string) : value := VDict [("error", VStr msg)].

End Py.

(** ** The world outside the program *)

(** One call of [send_command]. *)
Record call := { c_ip : string; c_port : Z; c_command : value }.

(** What the operating system and the peer do during one call of
    [send_command], one field per socket operation, in program order. *)
Record exchange := {
  x_socket : pyresult unit;     (* socket.socket(AF_INET, SOCK_STREAM) *)
  x_settimeout : pyresult unit; (* sock.settimeout(5) *)
  x_connect : pyresult unit;    (* sock.connect((ip, port)) *)
  x_send : pyresult unit;       (* sock.send(encrypted) *)
  x_recv : pyresult bytes;      (* sock.recv(4096) *)
  x_close : pyresult unit       (* sock.close() *)
}.

(** The argument of [sock.recv(4096)]: one call of [recv] returns at most
    this many bytes, whatever the peer has sent. *)
Definition recv_bufsize : N := 4096.

(** A received datagram: payload and sender [(host, port)]. *)
Definition datagram : Type := bytes * (string * Z).

(** What the operating system does during one call of [discover_devices].
    [u_trace] lists, for each test of the [while] condition, the reading of
    [time.time()] and the outcome of the [recvfrom] that follows when the
    loop body is entered; after the last entry the deadline has passed. *)
Record udp_env := {
  u_socket : pyresult unit;       (* socket.socket(AF_INET, SOCK_DGRAM) *)
  u_broadcast : pyresult unit;    (* setsockopt(SOL_SOCKET, SO_BROADCAST, 1) *)
  u_reuseaddr : pyresult unit;    (* setsockopt(SOL_SOCKET, SO_REUSEADDR, 1) *)
  u_bind_9999 : pyresult unit;    (* sock.bind(('', 9999)) *)
  u_bind_any : pyresult unit;     (* sock.bind(('', 0)) *)
  u_settimeout : pyresult unit;   (* sock.settimeout(1.0) *)
  u_sendto : nat -> string -> pyresult unit; (* round, broadcast address *)
  u_start_time : Q;
  u_trace : list (Q * pyresult datagram);
  u_close : pyresult unit
}.

(** The TCP peer answers as a function of the calls made so far and of the
    present call; [calls] records every call of [send_command]. *)
Record world := {
  tcp : list call -> call -> exchange;
  calls : list call;
  udp : udp_env
}.

(** Computations that read and extend the world and may raise. *)
Definition M (A : Type) : Type := world -> pyresult A * world.

Definition ret {A} (a : A) : M A := fun w => (Ok a, w).

Definition mbind {A B} (m : M A) (k : A -> M B) : M B :=
  fun w =>
    match m w with
    | (Ok a, w') => k a w'
    | (Raise e, w') => (Raise e, w')
    end.

Definition lift {A} (r : pyresult A) : M A := fun w => (r, w).

Notation "'do!' x ':=' m 'in' k" := (mbind m (fun x => k))
  (at level 10, x name, m at level 100, k at level 200).

Definition Qltb (x y : Q) : bool := negb (Qle_bool y x).

Section Kasa.

(** The standard library's [json.dumps], [json.loads] and [int].  Every
    [value] is serialisable, so [json.dumps] returns a text; [json.loads] and
    [int] may raise. *)
Variable json_dumps : value -> pystr.
Variable json_loads : pystr -> pyresult value.
Variable py_int : string -> pyresult Z.

(** *** tplink_protocol.py: send_command *)

(** The [try] block, against the behaviour [x] of the network. *)
Definition send_command_try (command : value) (x : exchange) : pyresult value :=
  let json_cmd := json_dumps command in
  let! encrypted := Codec.encrypt json_cmd in
  let! _ := x_socket x in
  let! _ := x_settimeout x in
  let! _ := x_connect x in
  let! _ := x_send x in
  let! data := x_recv x in
  let! _ := x_close x in
  let! decrypted := Codec.decrypt (drop 4 data) in
  json_loads decrypted.

(** The [except] clauses, in order. *)
Definition send_command_except (e : exception) : value :=
  if is_socket_timeout e then Py.error_dict "Connection timeout"
  else if is_OSError e then Py.error_dict ("Socket error: " +:+ str_exn e)
  else if is_JSONDecodeError e then Py.error_dict ("JSON decode error: " +:+ str_exn e)
  else Py.error_dict ("Unexpected error: " +:+ str_exn e).

Definition send_command (ip : string) (port : Z) (command : value) : M value :=
  fun w =>
    let c := {| c_ip := ip; c_port := port; c_command := command |} in
    let w' := {| tcp := tcp w; calls := calls w ++ [c]; udp := udp w |} in
    match send_command_try command (tcp w (calls w) c) with
    | Ok response => (Ok response, w')
    | Raise e => (Ok (send_command_except e), w')
    end.

(** *** kasa_controller.py: KasaDevice *)

Record KasaDevice := { ip : string; port : Z }.

(** [KasaDevice(ip)], with the default port. *)
Definition new_device (ip : string) : KasaDevice := {| ip := ip; port := 9999 |}.

Definition cmd (top sub : string) (args : list (string * value)) : value :=
  VDict [(top, VDict [(sub, VDict args)])].

Definition turn_on (self : KasaDevice) : M value :=
  send_command (ip self) (port self) (cmd "system" "set_relay_state" [("state", VInt 1)]).

Definition turn_off (self : KasaDevice) : M value :=
  send_command (ip self) (port self) (cmd "system" "set_relay_state" [("state", VInt 0)]).

Definition get_info (self : KasaDevice) : M value :=
  send_command (ip self) (port self) (cmd "system" "get_sysinfo" []).

(** The [try] block of [get_state]. *)
Definition get_state_try (info : value) : pyresult value :=
  let! system := Py.subscript info "system" in
  let! sysinfo := Py.subscript system "get_sysinfo" in
  let! relay_state := Py.subscript sysinfo "relay_state" in
  Ok (VDict [("state", VStr (if Py.eq_one relay_state then "on" else "off"));
             ("relay_state", relay_state)]).

(** [get_state] after the call of [get_info]. *)
Definition get_state_of (info : value) : pyresult value :=
  let! has_error := Py.contains info "error" in
  if has_error then Ok info
  else
    match get_state_try info with
    | Ok r => Ok r
    | Raise e =>
        if is_KeyError e
        then Ok (Py.error_dict "Could not parse relay state from response")
        else Raise e
    end.

Definition get_state (self : KasaDevice) : M value :=
  do! info := get_info self in
  lift (get_state_of info).

Definition get_emeter_realtime (self : KasaDevice) : M value :=
  send_command (ip self) (port self) (cmd "emeter" "get_realtime" []).

Definition set_led (self : KasaDevice) (state : bool) : M value :=
  send_command (ip self) (port self)
    (cmd "system" "set_led_off" [("off", VInt (if state then 0 else 1))]).

Definition reboot (self : KasaDevice) (delay : Z) : M value :=
  send_command (ip self) (port self) (cmd "system" "reboot" [("delay", VInt delay)]).

Definition get_cloud_info (self : KasaDevice) : M value :=
  send_command (ip self) (port self) (cmd "cnCloud" "get_info" []).

Definition scan_wifi (self : KasaDevice) : M value :=
  send_command (ip self) (port self) (cmd "netif" "get_scaninfo" [("refresh", VInt 1)]).

(** *** kasa_controller.py: discover_devices *)

Definition dq : string := String (ascii_of_nat 34) EmptyString.

(** The discovery command, the text [{"system":{"get_sysinfo":{}}}]. *)
Definition discovery_command : string :=
  "{" +:+ dq +:+ "system" +:+ dq +:+ ":{" +:+ dq +:+ "get_sysinfo" +:+ dq +:+ ":{}}}".

Definition broadcast_addresses : list string :=
  [ "255.255.255.255"; "192.168.1.255"; "192.168.0.255"; "192.168.255.255";
    "10.0.255.255"; "10.255.255.255"; "172.16.255.255"; "100.64.255.255" ].

(** The five rounds of [sendto]: an address whose send raises is skipped.
    The result lists the sends that went out; nothing later depends on it. *)
Definition send_rounds (env : udp_env) : list (nat * string) :=
  flat_map
    (fun i =>
       flat_map
         (fun broadcast_addr =>
            match u_sendto env i broadcast_addr with
            | Ok _ => [(i, broadcast_addr)]
            | Raise _ => []
            end)
         broadcast_addresses)
    (seq 0 5).

(** The [while time.time() - start_time < timeout] loop, on the variable
    [discovered]. *)
Fixpoint collect (timeout start_time : Q) (trace : list (Q * pyresult datagram))
    (discovered : gset string) : gset string :=
  match trace with
  | [] => discovered
  | (now, received) :: rest =>
      if Qltb (now - start_time) timeout then
        match received with
        | Ok (data, addr) =>
            if 50 <? Codec.len data
            then collect timeout start_time rest ({[ addr.1 ]} ∪ discovered)
            else collect timeout start_time rest discovered
        | Raise e =>
            if is_socket_timeout e
            then collect timeout start_time rest discovered  (* continue *)
            else discovered                                  (* break *)
        end
      else discovered
  end.

(** The outer [try] block; it ends with [sock.close()]. *)
Definition discover_try (timeout : Q) (env : udp_env) : pyresult (gset string) :=
  let! _ := u_socket env in
  let! _ := u_broadcast env in
  let! _ := u_reuseaddr env in
  let! _ := match u_bind_9999 env with
            | Ok _ => Ok tt
            | Raise e => if is_OSError e then u_bind_any env else Raise e
            end in
  let! _ := u_settimeout env in
  let _ := send_rounds env in
  let discovered := collect timeout (u_start_time env) (u_trace env) ∅ in
  let! _ := u_close env in
  Ok discovered.

Definition discover_devices (timeout : Q) (env : udp_env) : pyresult value :=
  let! encrypted := Codec.encrypt (pystr_of_string discovery_command) in
  match discover_try timeout env with
  | Ok discovered => Ok (VList (VStr <$> elements discovered))
  | Raise e => Ok (Py.error_dict ("Discovery failed: " +:+ str_exn e))
  end.

(** *** kasa_api.py: main *)

(** How a statement of [main] ends: it falls through, raises, or leaves by
    [sys.exit]. [SystemExit] is not an [Exception]. *)
Inductive flow (A : Type) :=
| Next (a : A)
| Exc (e : exception)
| SysExit (code : Z).
Arguments Next {A} a.
Arguments Exc {A} e.
Arguments SysExit {A} code.

Record process := { p_world : world; p_stdout : list pystr }.

Definition cli (A : Type) : Type := process -> flow A * process.

Definition cret {A} (a : A) : cli A := fun p => (Next a, p).

Definition cbind {A B} (m : cli A) (k : A -> cli B) : cli B :=
  fun p =>
    match m p with
    | (Next a, p') => k a p'
    | (Exc e, p') => (Exc e, p')
    | (SysExit c, p') => (SysExit c, p')
    end.

Notation "'do*' x ':=' m 'in' k" := (cbind m (fun x => k))
  (at level 10, x name, m at level 100, k at level 200).

Definition pure {A} (r : pyresult A) : cli A :=
  fun p => (match r with Ok a => Next a | Raise e => Exc e end, p).

Definition run {A} (m : M A) : cli A :=
  fun p =>
    match m (p_world p) with
    | (Ok a, w) => (Next a, {| p_world := w; p_stdout := p_stdout p |})
    | (Raise e, w) => (Exc e, {| p_world := w; p_stdout := p_stdout p |})
    end.

(** [print(json.dumps(v))] *)
Definition print (v : value) : cli unit :=
  fun p => (Next tt, {| p_world := p_world p; p_stdout := p_stdout p ++ [json_dumps v] |}).

Definition sys_exit {A} (code : Z) : cli A := fun p => (SysExit code, p).

(** [sys.argv[i]] *)
Definition arg (argv : list string) (i : nat) : cli string :=
  match argv !! i with
  | Some a => cret a
  | None => pure (Raise (OtherError "list index out of range"))
  end.

Definition usage : value :=
  VDict [ ("error", VStr "No command specified");
          ("usage", VStr "kasa_api.py <command> [args...]");
          ("commands", VDict [
             ("discover", VStr "Discover devices on network");
             ("info", VStr "Get device info (requires ip)");
             ("state", VStr "Get device state (requires ip)");
             ("on", VStr "Turn device on (requires ip)");
             ("off", VStr "Turn device off (requires ip)");
             ("toggle", VStr "Toggle device state (requires ip)");
             ("emeter", VStr "Get energy meter data (requires ip)");
             ("led", VStr "Set LED state (requires ip, state)");
             ("reboot", VStr "Reboot device (requires ip)") ]) ].

(** [if len(sys.argv) < n: print(json.dumps({"error": msg})); sys.exit(1)] *)
Definition require_args (argv : list string) (n : nat) (msg : string) : cli unit :=
  if (length argv <? n)%nat
  then do* _ := print (Py.error_dict msg) in sys_exit 1
  else cret tt.

(** The branches of the [try] block of [main], one per verb. *)
Definition cmd_discover (argv : list string) : cli unit :=
  do* timeout := (if (2 <? length argv)%nat
                  then do* a := arg argv 2 in pure (py_int a)
                  else cret 3%Z) in
  do* devices := (fun p => pure (discover_devices (inject_Z timeout) (udp (p_world p))) p) in
  print (VDict [("devices", devices)]).

Definition cmd_info (argv : list string) : cli unit :=
  do* _ := require_args argv 3 "IP address required" in
  do* ip := arg argv 2 in
  let device := new_device ip in
  do* result := run (get_info device) in
  print result.

Definition cmd_state (argv : list string) : cli unit :=
  do* _ := require_args argv 3 "IP address required" in
  do* ip := arg argv 2 in
  let device := new_device ip in
  do* result := run (get_state device) in
  print result.

Definition cmd_on (argv : list string) : cli unit :=
  do* _ := require_args argv 3 "IP address required" in
  do* ip := arg argv 2 in
  let device := new_device ip in
  do* result := run (turn_on device) in
  do* state := run (get_state device) in
  print (VDict [("result", result); ("state", state)]).

Definition cmd_off (argv : list string) : cli unit :=
  do* _ := require_args argv 3 "IP address required" in
  do* ip := arg argv 2 in
  let device := new_device ip in
  do* result := run (turn_off device) in
  do* state := run (get_state device) in
  print (VDict [("result", result); ("state", state)]).

Definition cmd_toggle (argv : list string) : cli unit :=
  do* _ := require_args argv 3 "IP address required" in
  do* ip := arg argv 2 in
  let device := new_device ip in
  do* current := run (get_state device) in
  do* has_error := pure (Py.contains current "error") in
  if has_error : bool then
    do* _ := print current in sys_exit 1
  else
    do* relay_state := pure (Py.get current "relay_state") in
    do* result := (if Py.eq_one relay_state
                   then run (turn_off device)
                   else run (turn_on device)) in
    do* state := run (get_state device) in
    print (VDict [("result", result); ("state", state)]).

Definition cmd_emeter (argv : list string) : cli unit :=
  do* _ := require_args argv 3 "IP address required" in
  do* ip := arg argv 2 in
  let device := new_device ip in
  do* result := run (get_emeter_realtime device) in
  print result.

Definition cmd_led (argv : list string) : cli unit :=
  do* _ := require_args argv 4 "IP address and state (on/off) required" in
  do* ip := arg argv 2 in
  do* a := arg argv 3 in
  let state := existsb (String.eqb (Py.lower a)) ["on"; "1"; "true"] in
  let device := new_device ip in
  do* result := run (set_led device state) in
  print result.

Definition cmd_reboot (argv : list string) : cli unit :=
  do* _ := require_args argv 3 "IP address required" in
  do* ip := arg argv 2 in
  do* delay := (if (3 <? length argv)%nat
                then do* a := arg argv 3 in pure (py_int a)
                else cret 1%Z) in
  let device := new_device ip in
  do* result := run (reboot device delay) in
  print result.

Definition cmd_unknown (command : string) : cli unit :=
  do* _ := print (Py.error_dict ("Unknown command: " +:+ command)) in
  sys_exit 1.

(** The [if]/[elif] chain on the verb. *)
Definition dispatch (command : string) (argv : list string) : cli unit :=
  if String.eqb command "discover" then cmd_discover argv
  else if String.eqb command "info" then cmd_info argv
  else if String.eqb command "state" then cmd_state argv
  else if String.eqb command "on" then cmd_on argv
  else if String.eqb command "off" then cmd_off argv
  else if String.eqb command "toggle" then cmd_toggle argv
  else if String.eqb command "emeter" then cmd_emeter argv
  else if String.eqb command "led" then cmd_led argv
  else if String.eqb command "reboot" then cmd_reboot argv
  else cmd_unknown command.

Definition main (argv : list string) : cli unit :=
  if (length argv <? 2)%nat then
    do* _ := print usage in sys_exit 1
  else
    do* a := arg argv 1 in
    let command := Py.lower a in
    fun p =>
      match dispatch command argv p with
      | (Exc e, p') =>
          (do* _ := print (VDict [("error", VStr (str_exn e))]) in sys_exit 1) p'
      | r => r
      end.

(** The exit status of the interpreter after [main()]. *)
Definition exit_code {A} (f : flow A) : Z :=
  match f with
  | Next _ => 0
  | Exc _ => 1
  | SysExit code => code
  end.

End Kasa.

Arguments Next {A} a.
Arguments Exc {A} e.
Arguments SysExit {A} code.

(** ** scan_network.py: check_port *)

Module Scan.

(** What the operating system and the peer do during one call of
    [check_port].  [sock.close()] can be reached twice on one path, so its
    outcome is given per call. *)
Record probe := {
  k_socket : pyresult unit;       (* socket.socket(AF_INET, SOCK_STREAM) *)
  k_settimeout : pyresult unit;   (* sock.settimeout(timeout) *)
  k_connect_ex : pyresult Z;      (* sock.connect_ex((ip, port)) *)
  k_send : pyresult unit;         (* sock.send(encrypted) *)
  k_recv : pyresult bytes;        (* sock.recv(4096) *)
  k_close : nat -> pyresult unit  (* the n-th call of sock.close() *)
}.

Definition responding (ip : string) (port : Z) (data : bytes) : value :=
  VDict [("ip", VStr ip); ("port", VInt port); ("open", VBool true);
         ("responding", VBool true); ("data_length", VInt (Z.of_N (Codec.len data)))].

Definition not_responding (ip : string) (port : Z) : value :=
  VDict [("ip", VStr ip); ("port", VInt port); ("open", VBool true);
         ("responding", VBool false)].

(** The inner [try] with its bare [except], which closes the socket (again,
    when it was the close that raised). *)
Definition talk (ip : string) (port : Z) (k : probe) : pyresult value :=
  match k_send k with
  | Raise _ => let! _ := k_close k 0 in Ok (not_responding ip port)
  | Ok _ =>
      match k_recv k with
      | Raise _ => let! _ := k_close k 0 in Ok (not_responding ip port)
      | Ok data =>
          match k_close k 0 with
          | Raise _ => let! _ := k_close k 1 in Ok (not_responding ip port)
          | Ok _ =>
              Ok (if 4 <? Codec.len data
                  then responding ip port data
                  else not_responding ip port)
          end
      end
  end.

(** The outer [try] block. *)
Definition check_port_try (ip : string) (port : Z) (k : probe) : pyresult value :=
  let! _ := k_socket k in
  let! _ := k_settimeout k in
  let! result := k_connect_ex k in
  if Z.eqb result 0 then
    let! encrypted := Codec.encrypt (pystr_of_string discovery_command) in
    talk ip port k
  else
    let! _ := k_close k 0 in
    Ok VNone.

(** [check_port(ip, port, timeout)]; the bare [except] returns [None]. *)
Definition check_port (ip : string) (port : Z) (timeout : Q) (k : probe) : value :=
  match check_port_try ip port k with
  | Ok v => v
  | Raise _ => VNone
  end.

End Scan.

(** ** get_network_interfaces.py and test_discovery.py: address helpers *)

Module Interfaces.

(** [s.split(sep)] for a separator of one character. *)
Fixpoint split_on (sep : ascii) (s : string) : list string :=
  match s with
  | EmptyString => [EmptyString]
  | String a s' =>
      if Ascii.eqb a sep then EmptyString :: split_on sep s'
      else
        match split_on sep s' with
        | piece :: rest => String a piece :: rest
        | [] => [String a EmptyString]
        end
  end.

(** [c in s] for a character [c]. *)
Fixpoint has_char (c : ascii) (s : string) : bool :=
  match s with
  | EmptyString => false
  | String a s' => Ascii.eqb a c || has_char c s'
  end.

(** [parts[i]] *)
Definition index (parts : list Z) (i : nat) : pyresult Z :=
  match parts !! i with
  | Some x => Ok x
  | None => Raise (OtherError "list index out of range")
  end.

(** What the host answers to [get_local_interfaces]: the host name, the
    address field [addr[4][0]] of each entry of [getaddrinfo], and the
    operations of the UDP socket connected to 8.8.8.8. *)
Record host := {
  h_gethostname : pyresult string;
  h_getaddrinfo : pyresult (list string);
  h_socket : pyresult unit;
  h_connect : pyresult unit;
  h_getsockname : pyresult string;
  h_close : pyresult unit
}.

(** The second [try] block: the local address of the connected socket, read
    before the socket is closed. *)
Definition connect_trick (h : host) : pyresult string :=
  let! _ := h_socket h in
  let! _ := h_connect h in
  let! local_ip := h_getsockname h in
  let! _ := h_close h in
  Ok local_ip.

Definition get_local_interfaces (h : host) : pyresult (list string) :=
  let! hostname := h_gethostname h in
  let interfaces :=
    match h_getaddrinfo h with
    | Ok addrs =>
        filter (fun ip => negb (has_char ":" ip) && negb (String.eqb ip "127.0.0.1")) addrs
    | Raise _ => []
    end in
  match connect_trick h with
  | Ok local_ip =>
      if existsb (String.eqb local_ip) interfaces
      then Ok interfaces
      else Ok (interfaces ++ [local_ip])
  | Raise _ => Ok interfaces
  end.

Section Parsing.

Variable py_int : string -> pyresult Z.

(** [[int(x) for x in xs]] *)
Fixpoint ints (xs : list string) : pyresult (list Z) :=
  match xs with
  | [] => Ok []
  | x :: rest =>
      let! n := py_int x in
      let! ns := ints rest in
      Ok (n :: ns)
  end.

Definition categorize_ip (ip : string) : pyresult (string * string) :=
  let! parts := ints (split_on "." ip) in
  let! p0 := index parts 0 in
  if Z.eqb p0 10 then Ok ("private_10", "Private network (10.x.x.x)")
  else
    let! c172 := (if Z.eqb p0 172
                  then let! p1 := index parts 1 in Ok (Z.leb 16 p1 && Z.leb p1 31)
                  else Ok false) in
    if c172 : bool then Ok ("private_172", "Private network (172.16-31.x.x)")
    else
      let! c192 := (if Z.eqb p0 192
                    then let! p1 := index parts 1 in Ok (Z.eqb p1 168)
                    else Ok false) in
      if c192 : bool then Ok ("private_192", "Private network (192.168.x.x)")
      else
        let! c100 := (if Z.eqb p0 100
                      then let! p1 := index parts 1 in Ok (Z.leb 64 p1 && Z.leb p1 127)
                      else Ok false) in
        if c100 : bool then Ok ("cgnat_vpn", "CGNAT/VPN (likely Tailscale/ZeroTier)")
        else
          let! c169 := (if Z.eqb p0 169
                        then let! p1 := index parts 1 in Ok (Z.eqb p1 254)
                        else Ok false) in
          if c169 : bool then Ok ("link_local", "Link-local (169.254.x.x - no DHCP)")
          else Ok ("unknown", "Unknown/Public").

(** [is_vpn_ip] of test_discovery.py. *)
Definition is_vpn_ip (ip : string) : pyresult bool :=
  let! parts := ints (split_on "." ip) in
  let! p0 := index parts 0 in
  if Z.eqb p0 100
  then let! p1 := index parts 1 in Ok (Z.leb 64 p1 && Z.leb p1 127)
  else Ok false.

End Parsing.

(** An IPv4 address as a number, and membership of the block
    [base/bits]. *)
Definition address (a b c d : Z) : Z := (((a * 256 + b) * 256 + c) * 256 + d)%Z.

Definition in_block (addr base : Z) (bits : Z) : Prop :=
  (addr / 2 ^ (32 - bits) = base / 2 ^ (32 - bits))%Z.

End Interfaces.

(** An exchange whose [recv] gives [r]. *)
Definition with_recv (x : exchange) (r : pyresult bytes) : exchange :=
  {| x_socket := x_socket x; x_settimeout := x_settimeout x; x_connect := x_connect x;
     x_send := x_send x; x_recv := r; x_close := x_close x |}.

(** ** Spec-side notions used to state the properties *)

(** The datagrams [recvfrom] delivers during the listening window: those of
    the iterations entered before the deadline and before the first error
    that is not a receive timeout. *)
Fixpoint received (timeout start_time : Q) (trace : list (Q * pyresult datagram))
    : list datagram :=
  match trace with
  | [] => []
  | (now, r) :: rest =>
      if Qltb (now - start_time) timeout then
        match r with
        | Ok d => d :: received timeout start_time rest
        | Raise e =>
            if is_socket_timeout e then received timeout start_time rest else []
        end
      else []
  end.

(** Socket creation, options, bind (on port 9999, or on any port after an
    [OSError]) and [settimeout] all succeed. *)
Definition socket_ready (env : udp_env) : Prop :=
  u_socket env = Ok tt /\ u_broadcast env = Ok tt /\ u_reuseaddr env = Ok tt /\
  (u_bind_9999 env = Ok tt \/
   exists e, u_bind_9999 env = Raise e /\ is_OSError e = true /\ u_bind_any env = Ok tt) /\
  u_settimeout env = Ok tt.

(** A value that is a mapping. *)
Definition is_mapping (v : value) : Prop := exists d, v = VDict d.

(** The three calls a device receives. *)
Definition sysinfo_call (ip : string) : call :=
  {| c_ip := ip; c_port := 9999; c_command := cmd "system" "get_sysinfo" [] |}.
Definition relay_call (ip : string) (state : Z) : call :=
  {| c_ip := ip; c_port := 9999;
     c_command := cmd "system" "set_relay_state" [("state", VInt state)] |}.

(** A step of [main] that prints nothing and does not leave by [sys.exit]. *)
Definition silent {A} (m : cli A) : Prop :=
  forall p, p_stdout (m p).2 = p_stdout p /\ forall code, (m p).1 <> SysExit code.

(** A command that prints exactly one JSON text when it falls through or
    leaves by [sys.exit]; it leaves only with code 1, after printing a value
    that holds "error"; and it has printed nothing when it raises. *)
Definition reports (json_dumps : value -> pystr) (m : cli unit) : Prop :=
  forall p,
    match m p with
    | (Next _, p') => exists v, p_stdout p' = p_stdout p ++ [json_dumps v]
    | (SysExit code, p') =>
        code = 1%Z /\
        exists v, p_stdout p' = p_stdout p ++ [json_dumps v] /\
                  Py.contains v "error" = Ok true
    | (Exc _, p') => p_stdout p' = p_stdout p
    end.

(** The end of a branch of [main] that performs the device operations [op]
    and prints what they return: the value is printed as it is and [main]
    falls through (exit code 0); only when [op] raises does the handler of
    [main] print the error line and leave with code 1. *)
Definition prints_result (json_dumps : value -> pystr) (op : M value) (p : process)
    : flow unit * process :=
  match op (p_world p) with
  | (Ok result, w) =>
      (Next tt, {| p_world := w; p_stdout := p_stdout p ++ [json_dumps result] |})
  | (Raise e, w) =>
      (SysExit 1,
       {| p_world := w;
          p_stdout := p_stdout p ++ [json_dumps (VDict [("error", VStr (str_exn e))])] |})
  end.

(** ** Concrete instances, for evaluating the program *)

Module Fixture.

Definition q (s : string) : string := dq +:+ s +:+ dq.

(** Replies of a plug, as texts and as the values [json.loads] gives. *)
Definition sysinfo_text (relay : string) : string :=
  "{" +:+ q "system" +:+ ":{" +:+ q "get_sysinfo" +:+ ":{" +:+ q "relay_state" +:+ ":" +:+ relay +:+ "}}}".
Definition sysinfo_value (relay : value) : value :=
  VDict [("system", VDict [("get_sysinfo", VDict [("relay_state", relay)])])].
Definition bulb_text : string :=
  "{" +:+ q "system" +:+ ":{" +:+ q "get_sysinfo" +:+ ":{" +:+ q "alias" +:+ ":" +:+ q "lamp" +:+ "}}}".
Definition bulb_value : value :=
  VDict [("system", VDict [("get_sysinfo", VDict [("alias", VStr "lamp")])])].
Definition relay_ack_text : string :=
  "{" +:+ q "system" +:+ ":{" +:+ q "set_relay_state" +:+ ":{" +:+ q "err_code" +:+ ":0}}}".
Definition relay_ack_value : value :=
  VDict [("system", VDict [("set_relay_state", VDict [("err_code", VInt 0)])])].

(** [json.loads] on the texts above and on [[]], [true] and [5]; any other
    text is taken not to be JSON. *)
Definition loads_table : list (string * value) :=
  [ (sysinfo_text "1", sysinfo_value (VInt 1));
    (sysinfo_text "0", sysinfo_value (VInt 0));
    (sysinfo_text "2", sysinfo_value (VInt 2));
    (sysinfo_text "true", sysinfo_value (VBool true));
    (bulb_text, bulb_value);
    (relay_ack_text, relay_ack_value);
    ("[]", VList []);
    ("5", VInt 5) ].

Definition string_of_pystr (t : pystr) : string :=
  string_of_list_ascii (map ascii_of_N t).

Definition json_loads (t : pystr) : pyresult value :=
  match Py.dict_lookup (string_of_pystr t) loads_table with
  | Some v => Ok v
  | None => Raise (JSONDecodeError "Expecting value: line 1 column 1 (char 0)")
  end.

(** [json.dumps] on values without floats and without characters that need
    an escape. *)
Fixpoint dumps (v : value) : string :=
  match v with
  | VNone => "null"
  | VBool true => "true"
  | VBool false => "false"
  | VInt z => pretty z
  | VFloat _ => "NaN"
  | VStr s => q s
  | VList l =>
      "[" +:+
      (fix items (l : list value) : string :=
         match l with
         | [] => ""
         | [x] => dumps x
         | x :: rest => dumps x +:+ ", " +:+ items rest
         end) l +:+ "]"
  | VDict d =>
      "{" +:+
      (fix items (d : list (string * value)) : string :=
         match d with
         | [] => ""
         | [(k, x)] => q k +:+ ": " +:+ dumps x
         | (k, x) :: rest => q k +:+ ": " +:+ dumps x +:+ ", " +:+ items rest
         end) d +:+ "}"
  end.

Definition json_dumps (v : value) : pystr := pystr_of_string (dumps v).

(** [int] on the texts ["3"] and ["10"]. *)
Definition py_int (s : string) : pyresult Z :=
  if String.eqb s "3" then Ok 3%Z
  else if String.eqb s "10" then Ok 10%Z
  else Raise (ValueError "invalid literal for int() with base 10").

Definition frame_of (text : string) : bytes :=
  match Codec.encrypt (pystr_of_string text) with
  | Ok frame => frame
  | Raise _ => []
  end.

(** A peer that accepts the connection and answers with the frame of
    [text]. *)
Definition answers (text : string) : exchange :=
  {| x_socket := Ok tt; x_settimeout := Ok tt; x_connect := Ok tt;
     x_send := Ok tt; x_recv := Ok (frame_of text); x_close := Ok tt |}.

(** An address where nothing answers: [connect] times out. *)
Definition unreachable : exchange :=
  {| x_socket := Ok tt; x_settimeout := Ok tt;
     x_connect := Raise (SocketTimeout "timed out");
     x_send := Ok tt; x_recv := Ok []; x_close := Ok tt |}.

(** The argument of a [set_relay_state] command. *)
Definition relay_arg (command : value) : option Z :=
  match Py.subscript command "system" with
  | Ok system =>
      match Py.subscript system "set_relay_state" with
      | Ok args =>
          match Py.subscript args "state" with
          | Ok (VInt z) => Some z
          | _ => None
          end
      | _ => None
      end
  | _ => None
  end.

(** A plug, initially in state [initial]: it keeps the state of the last
    [set_relay_state] it received and reports it on [get_sysinfo]. *)
Definition plug (initial : Z) (history : list call) (c : call) : exchange :=
  match relay_arg (c_command c) with
  | Some _ => answers relay_ack_text
  | None =>
      let state :=
        fold_left
          (fun st past => match relay_arg (c_command past) with Some z => z | None => st end)
          history initial in
      answers (sysinfo_text (pretty state))
  end.


Definition quiet_udp : udp_env :=
  {| u_socket := Ok tt; u_broadcast := Ok tt; u_reuseaddr := Ok tt;
     u_bind_9999 := Ok tt; u_bind_any := Ok tt; u_settimeout := Ok tt;
     u_sendto := fun _ _ => Ok tt; u_start_time := 0%Q; u_trace := [];
     u_close := Ok tt |}.

(** A discovery pass: a 60-byte reply, the 29-byte echo of the request, a
    receive timeout, a second reply of the first sender and, in [failing],
    an error of the socket before a last reply. *)
Definition reply_60 : bytes := replicate 60 Byte.x7b.
Definition echo_29 : bytes := replicate 29 Byte.x7b.

Definition listening (failing : bool) : udp_env :=
  {| u_socket := Ok tt; u_broadcast := Ok tt; u_reuseaddr := Ok tt;
     u_bind_9999 := Raise (OSError "Address already in use");
     u_bind_any := Ok tt; u_settimeout := Ok tt;
     u_sendto := fun _ _ => Ok tt; u_start_time := 100%Q;
     u_trace :=
       [ (101%Q, Ok (reply_60, ("192.168.1.50", 9999%Z)));
         (102%Q, Ok (echo_29, ("192.168.1.7", 9999%Z)));
         (103%Q, Raise (SocketTimeout "timed out"));
         (104%Q, Ok (reply_60, ("192.168.1.50", 9999%Z))) ] ++
       (if failing then [(105%Q, Raise (OSError "Network is down"))] else []) ++
       [ (106%Q, Ok (reply_60, ("192.168.1.51", 9999%Z))) ];
     u_close := Ok tt |}.

Definition world_of (peer : list call -> call -> exchange) : world :=
  {| tcp := peer; calls := []; udp := quiet_udp |}.

Definition start (peer : list call -> call -> exchange) : process :=
  {| p_world := world_of peer; p_stdout := [] |}.

(** A reply whose "system" entry is a number, and [json.loads] extended to
    its text. *)
Definition odd_text : string := "{" +:+ q "system" +:+ ":5}".
Definition odd_value : value := VDict [("system", VInt 5)].

Definition json_loads_more (t : pystr) : pyresult value :=
  if String.eqb (string_of_pystr t) odd_text then Ok odd_value else json_loads t.

(** [int] on a text of decimal digits. *)
Fixpoint digits_value (acc : Z) (s : string) : option Z :=
  match s with
  | EmptyString => Some acc
  | String a s' =>
      let n := nat_of_ascii a in
      if (Nat.leb 48 n && Nat.leb n 57)%bool
      then digits_value (acc * 10 + Z.of_nat (n - 48))%Z s'
      else None
  end.

Definition int_of_digits (s : string) : pyresult Z :=
  match s with
  | EmptyString => Raise (ValueError "invalid literal for int() with base 10: ''")
  | _ =>
      match digits_value 0 s with
      | Some z => Ok z
      | None => Raise (ValueError "invalid literal for int() with base 10")
      end
  end.

(** A peer with port 9999 open that answers [data]. *)
Definition open_port (data : bytes) : Scan.probe :=
  {| Scan.k_socket := Ok tt; Scan.k_settimeout := Ok tt; Scan.k_connect_ex := Ok 0%Z;
     Scan.k_send := Ok tt; Scan.k_recv := Ok data; Scan.k_close := fun _ => Ok tt |}.

(** A host with two addresses, one of them reported twice, an IPv6 address
    and the loopback address. *)
Definition laptop : Interfaces.host :=
  {| Interfaces.h_gethostname := Ok "laptop";
     Interfaces.h_getaddrinfo :=
       Ok ["fe80::1"; "192.168.1.23"; "192.168.1.23"; "127.0.0.1"; "100.101.5.6"];
     Interfaces.h_socket := Ok tt; Interfaces.h_connect := Ok tt;
     Interfaces.h_getsockname := Ok "10.0.0.9"; Interfaces.h_close := Ok tt |}.

End Fixture.

(** * Properties *)

(** ** The codec *)

Section CodecFacts.

Import Codec.

Ltac Zify.zify_post_hook ::= Z.to_euclidean_division_equations.

Lemma lxor_below_256 (k c : N) : k < 256 -> c < 256 -> N.lxor k c < 256.
Proof.
  intros Hk Hc.
  destruct (N.eq_dec (N.lxor k c) 0) as [-> | Hnz]; [lia |].
  apply N.log2_lt_pow2 with (b := 8); [lia |].
  eapply N.le_lt_trans; [apply N.log2_lxor |].
  apply N.max_lub_lt.
  - destruct (N.eq_dec k 0) as [-> | ?]; [reflexivity | apply N.log2_lt_pow2; lia].
  - destruct (N.eq_dec c 0) as [-> | ?]; [reflexivity | apply N.log2_lt_pow2; lia].
Qed.

(** A set bit above the low byte survives the XOR with a one-byte key. *)
Lemma lxor_above_255 (k c : N) : k < 256 -> 255 < c -> 255 < N.lxor k c.
Proof.
  intros Hk Hc.
  assert (Hs : N.shiftr (N.lxor k c) 8 = N.shiftr c 8).
  { rewrite N.shiftr_lxor.
    replace (N.shiftr k 8) with 0; [apply N.lxor_0_l |].
    rewrite N.shiftr_div_pow2. symmetry. apply N.div_small. exact Hk. }
  rewrite !N.shiftr_div_pow2 in Hs.
  change (2 ^ 8) with 256 in Hs.
  lia.
Qed.

Lemma of_N_some (a : N) : a < 256 -> exists b, Byte.of_N a = Some b /\ Byte.to_N b = a.
Proof.
  intros Ha. destruct (Byte.of_N a) as [b |] eqn:E.
  - exists b. split; [reflexivity | now apply Byte.to_of_N].
  - apply Byte.of_N_None_iff in E. lia.
Qed.

Lemma to_N_byte_of (n : N) : Byte.to_N (byte_of n) = n mod 256.
Proof.
  unfold byte_of.
  destruct (of_N_some (n mod 256)) as (b & -> & Hb); [| exact Hb].
  apply N.mod_upper_bound. lia.
Qed.

Lemma to_N_lt_256 (b : Byte.byte) : Byte.to_N b < 256.
Proof. pose proof (Byte.to_N_bounded b). lia. Qed.

Lemma len_app {A} (l1 l2 : list A) : len (l1 ++ l2) = len l1 + len l2.
Proof. unfold len. rewrite length_app. lia. Qed.

(** The encryption loop appends one byte per character, and the decryption
    loop started with the same key reads the characters back. *)
Lemma encrypt_loop_ok (string : pystr) :
  forall key result out,
    key < 256 ->
    encrypt_loop key result string = Ok out ->
    exists body,
      out = result ++ body /\
      length body = length string /\
      Forall latin1 string /\
      string = zip_with N.lxor (key :: map Byte.to_N body) (map Byte.to_N body) /\
      forall acc, decrypt_loop key acc body = Ok (acc ++ string).
Proof.
  induction string as [| c rest IH]; intros key result out Hkey H; simpl in H.
  - inversion H; subst. exists []. rewrite app_nil_r.
    repeat split; [constructor | intros acc; simpl; now rewrite app_nil_r].
  - unfold ord in H.
    destruct (Byte.of_N (N.lxor key c)) as [b |] eqn:Eb; [| discriminate].
    apply Byte.to_of_N in Eb.
    pose proof (to_N_lt_256 b) as Hb.
    assert (Hc : c < 256).
    { destruct (N.lt_ge_cases c 256) as [? | Hge]; [assumption |].
      pose proof (lxor_above_255 key c Hkey ltac:(lia)). lia. }
    assert (Ha : N.lxor key c < 256) by (rewrite <- Eb; exact Hb).
    destruct (IH _ _ _ Ha H) as (body & -> & Hlen & Hall & Hkeys & Hdec).
    assert (Hback : N.lxor key (Byte.to_N b) = c).
    { rewrite Eb, <- N.lxor_assoc, N.lxor_nilpotent. apply N.lxor_0_l. }
    exists (b :: body). repeat split.
    + now rewrite <- app_assoc.
    + simpl. now rewrite Hlen.
    + constructor; [unfold latin1; lia | exact Hall].
    + cbn [map zip_with]. rewrite Hback. f_equal. rewrite Eb. exact Hkeys.
    + intros acc. simpl. rewrite Eb.
      rewrite <- N.lxor_assoc, N.lxor_nilpotent, N.lxor_0_l.
      unfold chr. replace (c <? 1114112) with true by (symmetry; apply N.ltb_lt; lia).
      simpl. rewrite Hdec. now rewrite <- app_assoc.
Qed.

Lemma encrypt_loop_total (string : pystr) :
  forall key result,
    key < 256 -> Forall latin1 string ->
    exists out, encrypt_loop key result string = Ok out.
Proof.
  induction string as [| c rest IH]; intros key result Hkey Hall; cbn [encrypt_loop].
  - now exists result.
  - inversion Hall as [| ? ? Hc Hrest]; subst. unfold latin1 in Hc. unfold ord.
    destruct (of_N_some (N.lxor key c)) as (b & -> & Hb).
    { apply lxor_below_256; lia. }
    apply IH; [| exact Hrest]. apply lxor_below_256; lia.
Qed.

Lemma encrypt_loop_wide (string : pystr) :
  forall key result,
    key < 256 -> Exists (fun c => 255 < c) string ->
    encrypt_loop key result string = Raise (ValueError "bytes must be in range(0, 256)").
Proof.
  induction string as [| c rest IH]; intros key result Hkey Hex.
  - inversion Hex.
  - cbn [encrypt_loop]. unfold ord.
    destruct (Byte.of_N (N.lxor key c)) as [b |] eqn:Eb; [| reflexivity].
    apply Byte.to_of_N in Eb.
    pose proof (to_N_lt_256 b) as Hb.
    inversion Hex as [? ? Hc | ? ? Hrest]; subst.
    + pose proof (lxor_above_255 key c Hkey Hc). lia.
    + apply IH; [lia | exact Hrest].
Qed.

Lemma pack_I_ok (n : N) :
  n < 2 ^ 32 ->
  exists header, pack_I n = Ok header /\ length header = 4%nat /\ be_value header = n.
Proof.
  intros Hn. unfold pack_I.
  replace (n <? 2 ^ 32) with true by (symmetry; now apply N.ltb_lt).
  eexists. split; [reflexivity |]. split; [reflexivity |].
  unfold be_value. simpl. rewrite !to_N_byte_of.
  change (2 ^ 32) with 4294967296 in Hn.
  change (2 ^ 24) with 16777216. change (2 ^ 16) with 65536. change (2 ^ 8) with 256.
  lia.
Qed.

Lemma pack_I_overflow (n : N) :
  2 ^ 32 <= n ->
  pack_I n = Raise (StructError "'I' format requires 0 <= number <= 4294967295").
Proof.
  intros Hn. unfold pack_I.
  replace (n <? 2 ^ 32) with false; [reflexivity |].
  symmetry. now apply N.ltb_ge.
Qed.

Lemma len_replicate {A} (n : N) (x : A) : len (replicate (N.to_nat n) x) = n.
Proof. unfold len. rewrite length_replicate. apply N2Nat.id. Qed.

Lemma Exists_replicate {A} (Q : A -> Prop) (n : N) (x : A) :
  n <> 0 -> Q x -> Exists Q (replicate (N.to_nat n) x).
Proof.
  intros Hn Hx. destruct (N.to_nat n) as [| m] eqn:E; [lia |].
  now apply Exists_cons_hd.
Qed.

Lemma encrypt_overflow (string : pystr) :
  2 ^ 32 <= len string ->
  encrypt string = Raise (StructError "'I' format requires 0 <= number <= 4294967295").
Proof. intros H. unfold encrypt. now rewrite pack_I_overflow. Qed.

Lemma encrypt_accepts (P : pystr) :
  (exists frame, encrypt P = Ok frame) <-> Forall latin1 P /\ len P < 2 ^ 32.
Proof.
  unfold encrypt, pack_I. split.
  - intros [frame H].
    destruct (len P <? 2 ^ 32) eqn:E; [| discriminate].
    apply N.ltb_lt in E. split; [| exact E].
    cbn [bind] in H.
    destruct (encrypt_loop_ok _ 171 _ _ eq_refl H) as (? & _ & _ & Hall & _).
    exact Hall.
  - intros [Hall Hlen]. apply N.ltb_lt in Hlen. rewrite Hlen. cbn [bind].
    now apply encrypt_loop_total.
Qed.

(** C6.  Whenever [encrypt] returns, the frame is a 4-byte header followed by
    a body: the header read as a big-endian unsigned number is the number of
    characters of the plaintext (not the length of the frame), the body has
    exactly that many bytes, and these are the ciphertext (they decrypt to
    the plaintext).  The frame of the empty string is four zero bytes. *)
Theorem encrypt_frame :
  (forall P frame,
      encrypt P = Ok frame ->
      exists header body,
        frame = header ++ body /\
        length header = 4%nat /\
        be_value header = len P /\
        len body = len P /\
        decrypt body = Ok P) /\
  encrypt [] = Ok [Byte.x00; Byte.x00; Byte.x00; Byte.x00].
Proof.
  split; [| reflexivity].
  intros P frame H.
  assert (Hacc : Forall latin1 P /\ len P < 2 ^ 32) by (apply encrypt_accepts; eauto).
  destruct Hacc as [_ Hlen].
  destruct (pack_I_ok _ Hlen) as (header & Hpack & Hh4 & Hval).
  unfold encrypt in H. rewrite Hpack in H. cbn [bind] in H.
  destruct (encrypt_loop_ok _ 171 _ _ eq_refl H) as (body & -> & Hb & _ & _ & Hdec).
  exists header, body. repeat split; try assumption.
  - unfold len. now rewrite Hb.
  - apply (Hdec []).
Qed.

Lemma encrypt_frame_witness :
  exists header body,
    [Byte.x00; Byte.x00; Byte.x00; Byte.x02; Byte.xc3; Byte.xaa] = header ++ body /\
    length header = 4%nat /\
    be_value header = len [104; 105] /\
    len body = len [104; 105] /\
    decrypt body = Ok [104; 105].
Proof.
  apply (proj1 encrypt_frame [104; 105]). reflexivity.
Defined.

(** C1, as stated, fails on a text of 2^32 characters: every character fits
    in a byte, but the length does not fit the 4-byte header, [pack] raises
    and there is no frame to decrypt. *)
Lemma roundtrip_fails_beyond_header_range :
  Forall latin1 (replicate (N.to_nat (2 ^ 32)) 0) /\
  ~ exists frame,
      encrypt (replicate (N.to_nat (2 ^ 32)) 0) = Ok frame /\
      decrypt (drop 4 frame) = Ok (replicate (N.to_nat (2 ^ 32)) 0).
Proof.
  split.
  - apply Forall_replicate. unfold latin1. lia.
  - intros (frame & H & _).
    rewrite encrypt_overflow in H; [discriminate H |].
    rewrite len_replicate. apply N.le_refl.
Qed.

(** C1, amended.  For every text of fewer than 2^32 characters, all with code
    points 0-255 (the empty text included), [encrypt] returns a frame and
    decrypting the frame without its first four bytes gives the text back.
    Both loops start from key 171; each plaintext character is the XOR of the
    ciphertext byte with the previous ciphertext byte (171 for the first),
    which is the key [decrypt] carries. *)
Theorem decrypt_encrypt_roundtrip (P : pystr) :
  Forall latin1 P -> len P < 2 ^ 32 ->
  exists frame,
    encrypt P = Ok frame /\
    decrypt (drop 4 frame) = Ok P /\
    P = zip_with N.lxor (171 :: map Byte.to_N (drop 4 frame)) (map Byte.to_N (drop 4 frame)).
Proof.
  intros Hall Hlen.
  destruct (proj2 (encrypt_accepts P) (conj Hall Hlen)) as [frame H].
  exists frame. split; [exact H |].
  destruct (pack_I_ok _ Hlen) as (header & Hpack & Hh4 & _).
  unfold encrypt in H. rewrite Hpack in H. cbn [bind] in H.
  destruct (encrypt_loop_ok _ 171 _ _ eq_refl H) as (body & -> & _ & _ & Hkeys & Hdec).
  rewrite (drop_app_length' header body 4) by (symmetry; exact Hh4).
  split; [apply (Hdec []) | exact Hkeys].
Qed.

Lemma decrypt_encrypt_roundtrip_witness :
  exists frame,
    encrypt [0; 104; 233; 255] = Ok frame /\
    decrypt (drop 4 frame) = Ok [0; 104; 233; 255] /\
    [0; 104; 233; 255] =
      zip_with N.lxor (171 :: map Byte.to_N (drop 4 frame)) (map Byte.to_N (drop 4 frame)).
Proof.
  apply (decrypt_encrypt_roundtrip [0; 104; 233; 255]).
  - repeat constructor; unfold latin1; lia.
  - vm_compute. reflexivity.
Defined.

(** C9, as stated, fails on a text of 2^32 characters with code point 256:
    it holds a character above 255, yet what [encrypt] raises is the
    [struct.error] of the header, before any character is looked at. *)
Lemma wide_text_beyond_header_range_is_no_ValueError :
  Exists (fun c => 255 < c) (replicate (N.to_nat (2 ^ 32)) 256) /\
  ~ exists msg, encrypt (replicate (N.to_nat (2 ^ 32)) 256) = Raise (ValueError msg).
Proof.
  split.
  - apply Exists_replicate; [discriminate | lia].
  - intros [msg H].
    rewrite encrypt_overflow in H; [discriminate H |].
    rewrite len_replicate. apply N.le_refl.
Qed.

(** C9, amended.  [encrypt] returns exactly on the texts of fewer than 2^32
    characters whose characters all have code points 0-255; on a text of
    fewer than 2^32 characters with a character above 255 it raises
    [ValueError], because the XOR of a one-byte key with such a code point
    is above 255.  (At 2^32 characters and more the header cannot be packed,
    whatever the characters.) *)
Theorem encrypt_partial_on_wide_text (string : pystr) :
  ((exists frame, encrypt string = Ok frame) <->
     Forall latin1 string /\ len string < 2 ^ 32) /\
  (len string < 2 ^ 32 ->
   Exists (fun c => 255 < c) string ->
   encrypt string = Raise (ValueError "bytes must be in range(0, 256)")) /\
  (forall key c, key < 256 -> 255 < c -> 255 < N.lxor key (ord c)).
Proof.
  split; [apply encrypt_accepts |]. split.
  - intros Hlen Hex. unfold encrypt.
    destruct (pack_I_ok _ Hlen) as (header & -> & _). cbn [bind].
    apply encrypt_loop_wide; [reflexivity | exact Hex].
  - intros key c. apply lxor_above_255.
Qed.

Lemma encrypt_partial_on_wide_text_witness :
  encrypt [104; 8364; 105] = Raise (ValueError "bytes must be in range(0, 256)").
Proof.
  apply (proj1 (proj2 (encrypt_partial_on_wide_text [104; 8364; 105]))).
  - vm_compute. reflexivity.
  - apply Exists_cons_tl, Exists_cons_hd. lia.
Defined.

End CodecFacts.

(** ** The transport client *)

Section TransportFacts.

Variable json_dumps : value -> pystr.
Variable json_loads : pystr -> pyresult value.

(** Every [except] clause returns a mapping with the single key "error". *)
Lemma send_command_except_is_error (e : exception) :
  exists msg, send_command_except e = Py.error_dict msg.
Proof.
  unfold send_command_except.
  destruct (is_socket_timeout e); [eauto |].
  destruct (is_OSError e); [eauto |].
  destruct (is_JSONDecodeError e); eauto.
Qed.

(** No exception leaves [send_command]: the result is what [json.loads]
    returned, or an error mapping. *)
Lemma send_command_never_raises (ip : string) (port : Z) (command : value) (w : world) :
  exists response,
    (send_command json_dumps json_loads ip port command w).1 = Ok response /\
    (send_command_try json_dumps json_loads command
       (tcp w (calls w) {| c_ip := ip; c_port := port; c_command := command |})
       = Ok response \/
     exists msg, response = Py.error_dict msg).
Proof.
  unfold send_command.
  destruct (send_command_try _ _ _ _) as [response | e] eqn:E; cbn [fst].
  - exists response. split; [reflexivity | now left].
  - eexists. split; [reflexivity | right]. apply send_command_except_is_error.
Qed.

Lemma send_command_world (ip : string) (port : Z) (command : value) (w : world) :
  (send_command json_dumps json_loads ip port command w).2 =
  {| tcp := tcp w;
     calls := calls w ++ [{| c_ip := ip; c_port := port; c_command := command |}];
     udp := udp w |}.
Proof.
  unfold send_command. now destruct (send_command_try _ _ _ _).
Qed.

(** The failures the handlers name, each with its message. *)
Lemma send_command_failures (ip : string) (port : Z) (command : value) (w : world) (e : exception) :
  send_command_try json_dumps json_loads command
    (tcp w (calls w) {| c_ip := ip; c_port := port; c_command := command |}) = Raise e ->
  (send_command json_dumps json_loads ip port command w).1 =
    Ok (Py.error_dict
          (match e with
           | SocketTimeout _ => "Connection timeout"
           | OSError m => "Socket error: " +:+ m
           | JSONDecodeError m => "JSON decode error: " +:+ m
           | _ => "Unexpected error: " +:+ str_exn e
           end)).
Proof.
  intros H. unfold send_command. rewrite H. cbn [fst].
  now destruct e.
Qed.

(** A connect or read timeout reaches the handler as [socket.timeout]. *)
Lemma connect_timeout_raises (command : value) (x : exchange) (frame : bytes) (m : string) :
  Codec.encrypt (json_dumps command) = Ok frame ->
  x_socket x = Ok tt -> x_settimeout x = Ok tt ->
  x_connect x = Raise (SocketTimeout m) ->
  send_command_try json_dumps json_loads command x = Raise (SocketTimeout m).
Proof.
  intros He Hs Ht Hc. unfold send_command_try.
  now rewrite He, Hs, Ht, Hc.
Qed.

Lemma recv_timeout_raises (command : value) (x : exchange) (frame : bytes) (m : string) :
  Codec.encrypt (json_dumps command) = Ok frame ->
  x_socket x = Ok tt -> x_settimeout x = Ok tt -> x_connect x = Ok tt ->
  x_send x = Ok tt ->
  x_recv x = Raise (SocketTimeout m) ->
  send_command_try json_dumps json_loads command x = Raise (SocketTimeout m).
Proof.
  intros He Hs Ht Hc Hd Hr. unfold send_command_try.
  now rewrite He, Hs, Ht, Hc, Hd, Hr.
Qed.

(** [decrypt] accepts every sequence of bytes. *)
Lemma decrypt_loop_total (data : bytes) :
  forall key acc, key < 256 -> exists text, Codec.decrypt_loop key acc data = Ok text.
Proof.
  induction data as [| b rest IH]; intros key acc Hkey; cbn [Codec.decrypt_loop].
  - eauto.
  - pose proof (to_N_lt_256 b) as Hb.
    pose proof (lxor_below_256 key (Byte.to_N b) Hkey Hb) as Ha.
    unfold Codec.chr.
    replace (N.lxor key (Byte.to_N b) <? 1114112) with true
      by (symmetry; apply N.ltb_lt; lia).
    cbn [bind]. now apply IH.
Qed.

Lemma json_failure_raises (command : value) (x : exchange)
    (frame data : bytes) (text : pystr) (m : string) :
  Codec.encrypt (json_dumps command) = Ok frame ->
  x_socket x = Ok tt -> x_settimeout x = Ok tt -> x_connect x = Ok tt ->
  x_send x = Ok tt -> x_recv x = Ok data -> x_close x = Ok tt ->
  Codec.decrypt (drop 4 data) = Ok text ->
  json_loads text = Raise (JSONDecodeError m) ->
  send_command_try json_dumps json_loads command x = Raise (JSONDecodeError m).
Proof.
  intros He Hs Ht Hc Hd Hr Hx Hdec Hj. unfold send_command_try.
  rewrite He, Hs, Ht, Hc, Hd, Hr, Hx. cbn [bind]. now rewrite Hdec.
Qed.

End TransportFacts.

(** C2.  A peer whose reply decrypts to the JSON text [[]]: [send_command]
    returns the list, which is not a mapping, and the [get_state] built on
    it raises.  (No exception leaves [send_command], and each failure gives
    an error mapping: [send_command_never_raises], [send_command_failures].) *)
Theorem send_command_returns_what_json_loads_gives :
  (send_command Fixture.json_dumps Fixture.json_loads "192.168.1.50" 9999
     (cmd "system" "get_sysinfo" [])
     (Fixture.world_of (fun _ _ => Fixture.answers "[]"))).1 = Ok (VList []) /\
  ~ is_mapping (VList []) /\
  (get_state Fixture.json_dumps Fixture.json_loads (new_device "192.168.1.50")
     (Fixture.world_of (fun _ _ => Fixture.answers "[]"))).1 =
    Raise (TypeError "list indices must be integers or slices, not str").
Proof.
  split; [vm_compute; reflexivity |]. split; [| vm_compute; reflexivity].
  intros [d H]. discriminate H.
Qed.

(** ** The device facade *)

Section FacadeFacts.

Variable json_dumps : value -> pystr.
Variable json_loads : pystr -> pyresult value.

Lemma get_state_unfold (self : KasaDevice) (w w' : world) (info : value) :
  get_info json_dumps json_loads self w = (Ok info, w') ->
  get_state json_dumps json_loads self w = (get_state_of info, w').
Proof.
  intros H. unfold get_state, mbind, lift. now rewrite H.
Qed.

(** [get_info] always returns, and logs one call. *)
Lemma get_info_returns (self : KasaDevice) (w : world) :
  exists info,
    get_info json_dumps json_loads self w =
      (Ok info,
       {| tcp := tcp w;
          calls := calls w ++ [{| c_ip := ip self; c_port := port self;
                                  c_command := cmd "system" "get_sysinfo" [] |}];
          udp := udp w |}).
Proof.
  unfold get_info.
  destruct (send_command_never_raises json_dumps json_loads (ip self) (port self)
              (cmd "system" "get_sysinfo" []) w) as (info & H & _).
  exists info.
  rewrite <- (send_command_world json_dumps json_loads), <- H.
  now destruct (send_command _ _ _ _ _ _).
Qed.




End FacadeFacts.





(** ** Discovery *)

Section DiscoveryFacts.

Variables timeout start_time : Q.

(** The loop adds to [discovered] the senders of the datagrams of more than
    50 bytes among those received, and nothing else. *)
Lemma collect_spec (trace : list (Q * pyresult datagram)) :
  forall (discovered : gset string) (host : string),
    host ∈ collect timeout start_time trace discovered <->
    host ∈ discovered \/
    exists data addr,
      (data, addr) ∈ received timeout start_time trace /\
      50 < Codec.len data /\ addr.1 = host.
Proof.
  induction trace as [| [now r] rest IH]; intros discovered host;
    cbn [collect received].
  - split; [now left | intros [H | (data & addr & H & _)]; [exact H | inversion H]].
  - destruct (Qltb (now - start_time) timeout).
    2: { split; [now left | intros [H | (data & addr & H & _)]; [exact H | inversion H]]. }
    destruct r as [[data addr] | e].
    + destruct (50 <? Codec.len data) eqn:E.
      * apply N.ltb_lt in E. rewrite IH. split.
        -- intros [H | (data' & addr' & H & Hlen & Hh)].
           ++ apply elem_of_union in H as [H | H].
              ** apply elem_of_singleton in H. right. exists data, addr.
                 split; [left | split; [exact E | now symmetry]].
              ** now left.
           ++ right. exists data', addr'. split; [now right | now split].
        -- intros [H | (data' & addr' & H & Hlen & Hh)].
           ++ left. apply elem_of_union. now right.
           ++ apply elem_of_cons in H as [H | H].
              ** inversion H; subst. left. apply elem_of_union. left.
                 now apply elem_of_singleton.
              ** right. exists data', addr'. now repeat split.
      * apply N.ltb_ge in E. rewrite IH. split.
        -- intros [H | (data' & addr' & H & Hlen & Hh)]; [now left |].
           right. exists data', addr'. split; [now right | now split].
        -- intros [H | (data' & addr' & H & Hlen & Hh)]; [now left |].
           apply elem_of_cons in H as [H | H].
           ++ inversion H; subst. lia.
           ++ right. exists data', addr'. now repeat split.
    + destruct (is_socket_timeout e); [apply IH |].
      split; [now left | intros [H | (data & addr & H & _)]; [exact H | inversion H]].
Qed.

(** An error of [recvfrom] that is not a timeout ends the loop: what the
    trace holds after it is never looked at. *)
Lemma collect_break (pre rest : list (Q * pyresult datagram)) (now : Q) (e : exception) :
  is_socket_timeout e = false ->
  forall discovered,
    collect timeout start_time (pre ++ (now, Raise e) :: rest) discovered =
    collect timeout start_time pre discovered.
Proof.
  intros He. induction pre as [| [now' r] pre IH]; intros discovered; cbn [app collect].
  - rewrite He. now destruct (Qltb _ _).
  - destruct (Qltb (now' - start_time) timeout); [| reflexivity].
    destruct r as [[data addr] | e'].
    + destruct (50 <? Codec.len data); apply IH.
    + destruct (is_socket_timeout e'); [apply IH | reflexivity].
Qed.

End DiscoveryFacts.

Lemma discovery_frame :
  exists frame, Codec.encrypt (pystr_of_string discovery_command) = Ok frame.
Proof. eexists. vm_compute. reflexivity. Qed.

Lemma discover_try_ok (timeout : Q) (env : udp_env) :
  socket_ready env -> u_close env = Ok tt ->
  discover_try timeout env =
    Ok (collect timeout (u_start_time env) (u_trace env) ∅).
Proof.
  intros (Hs & Hb & Hr & Hbind & Ht) Hc. unfold discover_try.
  rewrite Hs, Hb, Hr, Ht, Hc. cbn [bind].
  destruct Hbind as [-> | (e & -> & -> & ->)]; reflexivity.
Qed.

Lemma discover_try_inv (timeout : Q) (env : udp_env) (discovered : gset string) :
  discover_try timeout env = Ok discovered ->
  discovered = collect timeout (u_start_time env) (u_trace env) ∅.
Proof.
  unfold discover_try. intros H.
  destruct (u_socket env); [| discriminate]. cbn [bind] in H.
  destruct (u_broadcast env); [| discriminate]. cbn [bind] in H.
  destruct (u_reuseaddr env); [| discriminate]. cbn [bind] in H.
  destruct (match u_bind_9999 env with
            | Ok _ => Ok ()
            | Raise e => if is_OSError e then u_bind_any env else Raise e
            end); [| discriminate]. cbn [bind] in H.
  destruct (u_settimeout env); [| discriminate]. cbn [bind] in H.
  destruct (u_close env); [| discriminate]. cbn [bind] in H.
  now inversion H.
Qed.

Lemma discover_devices_list (timeout : Q) (env : udp_env) (l : list value) :
  discover_devices timeout env = Ok (VList l) ->
  l = VStr <$> elements (collect timeout (u_start_time env) (u_trace env) ∅).
Proof.
  unfold discover_devices. destruct discovery_frame as [frame ->]. cbn [bind].
  destruct (discover_try timeout env) as [discovered | e] eqn:E; [| discriminate].
  apply discover_try_inv in E. subst. intros H. now inversion H.
Qed.

Lemma discover_devices_ok (timeout : Q) (env : udp_env) :
  socket_ready env -> u_close env = Ok tt ->
  discover_devices timeout env =
    Ok (VList (VStr <$> elements (collect timeout (u_start_time env) (u_trace env) ∅))).
Proof.
  intros Hr Hc. unfold discover_devices. destruct discovery_frame as [frame ->].
  cbn [bind]. now rewrite (discover_try_ok timeout env Hr Hc).
Qed.

Lemma VStr_inj : Inj (=) (=) VStr.
Proof. intros s t H. now inversion H. Qed.

(** C5.  In the loop, a received datagram adds its sender's address to
    [discovered] if and only if its payload has more than 50 bytes; a list
    returned by [discover_devices] holds, without repetition, exactly the
    sender addresses of the datagrams of more than 50 bytes received within
    the listening window; and a list is returned whenever the socket could
    be set up and closed. *)
Theorem discovery_echo_filter (timeout : Q) (env : udp_env) :
  (forall now data addr rest discovered,
      Qltb (now - u_start_time env) timeout = true ->
      collect timeout (u_start_time env) ((now, Ok (data, addr)) :: rest) discovered =
      collect timeout (u_start_time env) rest
        (if 50 <? Codec.len data then {[ addr.1 ]} ∪ discovered else discovered)) /\
  (forall l,
      discover_devices timeout env = Ok (VList l) ->
      NoDup l /\
      forall v,
        v ∈ l <->
        exists data addr,
          (data, addr) ∈ received timeout (u_start_time env) (u_trace env) /\
          50 < Codec.len data /\ v = VStr addr.1) /\
  (socket_ready env -> u_close env = Ok tt ->
   exists l, discover_devices timeout env = Ok (VList l)).
Proof.
  split; [| split].
  - intros now data addr rest discovered Hin. cbn [collect]. rewrite Hin.
    now destruct (50 <? Codec.len data).
  - intros l Hl. apply discover_devices_list in Hl. subst l. split.
    + pose proof VStr_inj as Hinj. apply NoDup_fmap_2; [exact Hinj | apply NoDup_elements].
    + intros v. rewrite list_elem_of_fmap. split.
      * intros (host & -> & Hin). apply elem_of_elements, collect_spec in Hin.
        destruct Hin as [Hin | (data & addr & Hin & Hlen & <-)].
        -- now apply not_elem_of_empty in Hin.
        -- now exists data, addr.
      * intros (data & addr & Hin & Hlen & ->). exists addr.1. split; [reflexivity |].
        apply elem_of_elements, collect_spec. right. now exists data, addr.
  - intros Hr Hc. eexists. now apply discover_devices_ok.
Qed.

Lemma socket_ready_listening (failing : bool) : socket_ready (Fixture.listening failing).
Proof.
  repeat split. right. exists (OSError "Address already in use"). now repeat split.
Qed.

Lemma discovery_echo_filter_witness :
  exists l,
    discover_devices 10 (Fixture.listening false) = Ok (VList l) /\
    NoDup l /\
    (VStr "192.168.1.51" ∈ l <->
     exists data addr,
       (data, addr) ∈ received 10 100 (u_trace (Fixture.listening false)) /\
       50 < Codec.len data /\ VStr "192.168.1.51" = VStr addr.1).
Proof.
  destruct (discovery_echo_filter 10 (Fixture.listening false)) as (_ & Hlist & Hret).
  destruct (Hret (socket_ready_listening false) eq_refl) as [l Hl].
  exists l. split; [exact Hl |].
  destruct (Hlist l Hl) as [Hnd Hmem]. split; [exact Hnd | apply Hmem].
Defined.

(** C3, as stated, fails: with a reply, then an [OSError] of [recvfrom]
    inside the listening window, the function returns the list collected so
    far and no error result. *)
Lemma recv_error_returns_partial_list :
  (exists pre rest,
      u_trace (Fixture.listening true) =
        pre ++ (105%Q, Raise (OSError "Network is down")) :: rest) /\
  Qltb (105 - u_start_time (Fixture.listening true)) 10 = true /\
  discover_devices 10 (Fixture.listening true) = Ok (VList [VStr "192.168.1.50"]).
Proof.
  split; [| split; vm_compute; reflexivity].
  eexists (_ :: _ :: _ :: [_]), _. reflexivity.
Qed.

(** C3, amended.  An error of [recvfrom] other than a timeout ends the
    collection loop; the socket is then closed and the function returns the
    list of the addresses collected before the error, not an error result.
    A receive timeout only continues the loop, which runs until the overall
    timeout has elapsed. *)
Theorem recv_error_ends_collection (timeout : Q) (env : udp_env)
    (pre rest : list (Q * pyresult datagram)) (now : Q) (e : exception) :
  u_trace env = pre ++ (now, Raise e) :: rest ->
  is_socket_timeout e = false ->
  socket_ready env -> u_close env = Ok tt ->
  discover_devices timeout env =
    Ok (VList (VStr <$> elements (collect timeout (u_start_time env) pre ∅))) /\
  (forall now' m rest' discovered,
      collect timeout (u_start_time env)
        ((now', Raise (SocketTimeout m)) :: rest') discovered =
      if Qltb (now' - u_start_time env) timeout
      then collect timeout (u_start_time env) rest' discovered
      else discovered).
Proof.
  intros Htrace He Hr Hc. split.
  - rewrite (discover_devices_ok timeout env Hr Hc), Htrace.
    now rewrite (collect_break timeout (u_start_time env) pre rest now e He).
  - intros now' m rest' discovered. reflexivity.
Qed.

Lemma recv_error_ends_collection_witness :
  discover_devices 10 (Fixture.listening true) =
    Ok (VList (VStr <$> elements
          (collect 10 100
             [ (101%Q, Ok (Fixture.reply_60, ("192.168.1.50", 9999%Z)));
               (102%Q, Ok (Fixture.echo_29, ("192.168.1.7", 9999%Z)));
               (103%Q, Raise (SocketTimeout "timed out"));
               (104%Q, Ok (Fixture.reply_60, ("192.168.1.50", 9999%Z))) ] ∅))).
Proof.
  refine (proj1 (recv_error_ends_collection 10 (Fixture.listening true) _
                   [ (106%Q, Ok (Fixture.reply_60, ("192.168.1.51", 9999%Z))) ]
                   105 (OSError "Network is down") _ _ _ _)).
  - reflexivity.
  - reflexivity.
  - apply socket_ready_listening.
  - reflexivity.
Defined.

(** ** The command-line dispatcher *)

Section CliFacts.

Variable json_dumps : value -> pystr.
Variable json_loads : pystr -> pyresult value.
Variable py_int : string -> pyresult Z.

Lemma silent_cret {A} (a : A) : silent (cret a).
Proof. intros p. split; [reflexivity | discriminate]. Qed.

Lemma silent_pure {A} (r : pyresult A) : silent (pure r).
Proof. intros p. unfold pure. split; [reflexivity | destruct r; discriminate]. Qed.

Lemma silent_run {A} (m : M A) : silent (run m).
Proof.
  intros p. unfold run. destruct (m (p_world p)) as [[a | e] w];
    (split; [reflexivity | discriminate]).
Qed.

Lemma silent_arg (argv : list string) (i : nat) : silent (arg argv i).
Proof. unfold arg. destruct (argv !! i); [apply silent_cret | apply silent_pure]. Qed.

Lemma silent_bind {A B} (m : cli A) (k : A -> cli B) :
  silent m -> (forall a, silent (k a)) -> silent (cbind m k).
Proof.
  intros Hm Hk p. unfold cbind. destruct (Hm p) as [Hout Hne].
  destruct (m p) as [[a | e | code] p']; cbn [fst snd] in *.
  - destruct (Hk a p') as [Hout' Hne']. split; [congruence | exact Hne'].
  - split; [exact Hout | discriminate].
  - now destruct (Hne code).
Qed.

Lemma reports_print (v : value) : reports json_dumps (print json_dumps v).
Proof. intros p. cbn. now exists v. Qed.

Lemma reports_print_exit (v : value) :
  Py.contains v "error" = Ok true ->
  reports json_dumps (cbind (print json_dumps v) (fun _ => sys_exit 1)).
Proof. intros Hv p. cbn. split; [reflexivity | now exists v]. Qed.

Lemma reports_bind {A} (m : cli A) (k : A -> cli unit) :
  silent m -> (forall a, reports json_dumps (k a)) -> reports json_dumps (cbind m k).
Proof.
  intros Hm Hk p. unfold cbind. destruct (Hm p) as [Hout Hne].
  destruct (m p) as [[a | e | code] p']; cbn [fst snd] in *.
  - specialize (Hk a p'). destruct (k a p') as [[u | e | code] p''].
    + now rewrite <- Hout.
    + congruence.
    + now rewrite <- Hout.
  - exact Hout.
  - now destruct (Hne code).
Qed.

Lemma reports_bind_pure {A} (r : pyresult A) (k : A -> cli unit) :
  (forall a, r = Ok a -> reports json_dumps (k a)) ->
  reports json_dumps (cbind (pure r) k).
Proof.
  intros Hk p. unfold cbind, pure. destruct r as [a | e].
  - apply (Hk a eq_refl).
  - reflexivity.
Qed.

Lemma reports_require (argv : list string) (n : nat) (msg : string) (k : unit -> cli unit) :
  reports json_dumps (k tt) ->
  reports json_dumps (cbind (require_args json_dumps argv n msg) k).
Proof.
  intros Hk. unfold require_args. destruct (length argv <? n)%nat.
  - intros p. cbn. split; [reflexivity |]. now exists (Py.error_dict msg).
  - exact Hk.
Qed.

Ltac silence :=
  repeat first
    [ apply silent_cret | apply silent_pure | apply silent_run | apply silent_arg
    | apply silent_bind; [| intros ?]
    | match goal with |- silent (if ?b then _ else _) => destruct b end ].

Ltac report :=
  repeat first
    [ apply reports_print
    | apply reports_require
    | apply reports_bind; [solve [silence] | intros ?] ].

Lemma dispatch_reports (command : string) (argv : list string) :
  reports json_dumps (dispatch json_dumps json_loads py_int command argv).
Proof.
  unfold dispatch.
  repeat match goal with |- context [String.eqb command ?s] => destruct (String.eqb command s) end.
  - unfold cmd_discover. report.
    apply reports_bind; [| intros ?; apply reports_print].
    intros p. unfold pure.
    split; [reflexivity | destruct (discover_devices _ _); discriminate].
  - unfold cmd_info. report.
  - unfold cmd_state. report.
  - unfold cmd_on. report.
  - unfold cmd_off. report.
  - unfold cmd_toggle. apply reports_require.
    apply reports_bind; [silence | intros ip].
    apply reports_bind; [silence | intros current].
    apply reports_bind_pure. intros has_error Herr.
    destruct has_error; [now apply reports_print_exit | report].
  - unfold cmd_emeter. report.
  - unfold cmd_led. report.
  - unfold cmd_reboot. report.
  - unfold cmd_unknown. now apply reports_print_exit.
Qed.

Lemma main_on_verb (prog verb : string) (rest : list string) (p : process) :
  main json_dumps json_loads py_int (prog :: verb :: rest) p =
  match dispatch json_dumps json_loads py_int (Py.lower verb) (prog :: verb :: rest) p with
  | (Exc e, p') =>
      (SysExit 1,
       {| p_world := p_world p';
          p_stdout := p_stdout p' ++ [json_dumps (VDict [("error", VStr (str_exn e))])] |})
  | r => r
  end.
Proof.
  unfold main. cbn [length Nat.ltb Nat.leb]. unfold arg. cbn [lookup list_lookup].
  unfold cbind at 1, cret.
  now destruct (dispatch _ _ _ _ _ _) as [[u | e | code] p'].
Qed.

(** [main] prints exactly one JSON text, and leaves with code 1 only after
    printing a value that holds "error". *)
Lemma main_reports (argv : list string) (p : process) :
  match main json_dumps json_loads py_int argv p with
  | (Next _, p') => exists v, p_stdout p' = p_stdout p ++ [json_dumps v]
  | (SysExit code, p') =>
      code = 1%Z /\
      exists v, p_stdout p' = p_stdout p ++ [json_dumps v] /\
                Py.contains v "error" = Ok true
  | (Exc _, _) => False
  end.
Proof.
  destruct argv as [| prog [| verb rest]].
  - cbn. split; [reflexivity |]. now exists usage.
  - cbn. split; [reflexivity |]. now exists usage.
  - rewrite main_on_verb.
    pose proof (dispatch_reports (Py.lower verb) (prog :: verb :: rest) p) as H.
    destruct (dispatch _ _ _ _ _ _) as [[u | e | code] p']; [exact H | | exact H].
    cbn [p_stdout]. split; [reflexivity |]. eexists. split; [now rewrite H | reflexivity].
Qed.

Lemma get_state_world (self : KasaDevice) (w w' : world) (r : pyresult value) :
  get_state json_dumps json_loads self w = (r, w') ->
  w' = {| tcp := tcp w;
          calls := calls w ++ [{| c_ip := ip self; c_port := port self;
                                  c_command := cmd "system" "get_sysinfo" [] |}];
          udp := udp w |}.
Proof.
  destruct (get_info_returns json_dumps json_loads self w) as [info Hinfo].
  rewrite (get_state_unfold _ _ _ _ _ _ Hinfo). now inversion 1.
Qed.

Lemma send_command_ok (ip : string) (port : Z) (command : value) (w : world) :
  exists result w', send_command json_dumps json_loads ip port command w = (Ok result, w').
Proof. unfold send_command. destruct (send_command_try _ _ _ _); eauto. Qed.

(** The verbs that perform one device operation and print what it
    returned. *)
Lemma info_prints_result (prog verb ip : string) (more : list string) (p : process) :
  Py.lower verb = "info" ->
  main json_dumps json_loads py_int (prog :: verb :: ip :: more) p =
    prints_result json_dumps (get_info json_dumps json_loads (new_device ip)) p.
Proof.
  intros Hverb. rewrite main_on_verb, Hverb.
  change (dispatch json_dumps json_loads py_int "info" (prog :: verb :: ip :: more))
    with (cmd_info json_dumps json_loads (prog :: verb :: ip :: more)).
  unfold cmd_info, require_args. cbn [length Nat.ltb Nat.leb].
  unfold arg. cbn [lookup list_lookup].
  unfold cbind, cret, run, prints_result.
  now destruct (get_info _ _ _ _) as [[r | e] w].
Qed.

Lemma state_prints_result (prog verb ip : string) (more : list string) (p : process) :
  Py.lower verb = "state" ->
  main json_dumps json_loads py_int (prog :: verb :: ip :: more) p =
    prints_result json_dumps (get_state json_dumps json_loads (new_device ip)) p.
Proof.
  intros Hverb. rewrite main_on_verb, Hverb.
  change (dispatch json_dumps json_loads py_int "state" (prog :: verb :: ip :: more))
    with (cmd_state json_dumps json_loads (prog :: verb :: ip :: more)).
  unfold cmd_state, require_args. cbn [length Nat.ltb Nat.leb].
  unfold arg. cbn [lookup list_lookup].
  unfold cbind, cret, run, prints_result.
  now destruct (get_state _ _ _ _) as [[r | e] w].
Qed.

Lemma emeter_prints_result (prog verb ip : string) (more : list string) (p : process) :
  Py.lower verb = "emeter" ->
  main json_dumps json_loads py_int (prog :: verb :: ip :: more) p =
    prints_result json_dumps (get_emeter_realtime json_dumps json_loads (new_device ip)) p.
Proof.
  intros Hverb. rewrite main_on_verb, Hverb.
  change (dispatch json_dumps json_loads py_int "emeter" (prog :: verb :: ip :: more))
    with (cmd_emeter json_dumps json_loads (prog :: verb :: ip :: more)).
  unfold cmd_emeter, require_args. cbn [length Nat.ltb Nat.leb].
  unfold arg. cbn [lookup list_lookup].
  unfold cbind, cret, run, prints_result.
  now destruct (get_emeter_realtime _ _ _ _) as [[r | e] w].
Qed.

Lemma led_prints_result (prog verb ip a : string) (more : list string) (p : process) :
  Py.lower verb = "led" ->
  main json_dumps json_loads py_int (prog :: verb :: ip :: a :: more) p =
    prints_result json_dumps
      (set_led json_dumps json_loads (new_device ip)
         (existsb (String.eqb (Py.lower a)) ["on"; "1"; "true"])) p.
Proof.
  intros Hverb. rewrite main_on_verb, Hverb.
  change (dispatch json_dumps json_loads py_int "led" (prog :: verb :: ip :: a :: more))
    with (cmd_led json_dumps json_loads (prog :: verb :: ip :: a :: more)).
  unfold cmd_led, require_args. cbn [length Nat.ltb Nat.leb].
  unfold arg. cbn [lookup list_lookup].
  unfold cbind, cret, run, prints_result.
  now destruct (set_led _ _ _ _ _) as [[r | e] w].
Qed.

Lemma reboot_prints_result (prog verb ip : string) (more : list string) (p : process) :
  Py.lower verb = "reboot" ->
  main json_dumps json_loads py_int (prog :: verb :: ip :: more) p =
    prints_result json_dumps
      (do! delay := lift (match more with [] => Ok 1%Z | a :: _ => py_int a end) in
       reboot json_dumps json_loads (new_device ip) delay) p.
Proof.
  intros Hverb. rewrite main_on_verb, Hverb.
  change (dispatch json_dumps json_loads py_int "reboot" (prog :: verb :: ip :: more))
    with (cmd_reboot json_dumps json_loads py_int (prog :: verb :: ip :: more)).
  unfold cmd_reboot, require_args. cbn [length Nat.ltb Nat.leb].
  unfold arg. cbn [lookup list_lookup].
  unfold prints_result, mbind, lift.
  destruct more as [| a more']; cbn [length Nat.ltb Nat.leb lookup list_lookup].
  - unfold cbind, cret, run.
    now destruct (reboot _ _ _ _ _) as [[r | e] w].
  - unfold cbind, cret, run, pure. destruct (py_int a) as [delay | e]; [| reflexivity].
    cbn [p_world p_stdout].
    now destruct (reboot _ _ _ _ _) as [[r | e] w].
Qed.

Lemma relay_prints_result (prog verb ip : string) (more : list string) (p : process) (on : bool) :
  Py.lower verb = (if on then "on" else "off") ->
  main json_dumps json_loads py_int (prog :: verb :: ip :: more) p =
    prints_result json_dumps
      (do! result := (if on then turn_on json_dumps json_loads (new_device ip)
                      else turn_off json_dumps json_loads (new_device ip)) in
       do! state := get_state json_dumps json_loads (new_device ip) in
       ret (VDict [("result", result); ("state", state)])) p.
Proof.
  intros Hverb. rewrite main_on_verb, Hverb.
  destruct on.
  - change (dispatch json_dumps json_loads py_int "on" (prog :: verb :: ip :: more))
      with (cmd_on json_dumps json_loads (prog :: verb :: ip :: more)).
    unfold cmd_on, require_args. cbn [length Nat.ltb Nat.leb].
    unfold arg. cbn [lookup list_lookup].
    unfold cbind, cret, run, prints_result, mbind, ret.
    destruct (turn_on _ _ _ _) as [[r | e] w1]; [| reflexivity].
    cbn [p_world p_stdout].
    now destruct (get_state _ _ _ _) as [[s | e] w2].
  - change (dispatch json_dumps json_loads py_int "off" (prog :: verb :: ip :: more))
      with (cmd_off json_dumps json_loads (prog :: verb :: ip :: more)).
    unfold cmd_off, require_args. cbn [length Nat.ltb Nat.leb].
    unfold arg. cbn [lookup list_lookup].
    unfold cbind, cret, run, prints_result, mbind, ret.
    destruct (turn_off _ _ _ _) as [[r | e] w1]; [| reflexivity].
    cbn [p_world p_stdout].
    now destruct (get_state _ _ _ _) as [[s | e] w2].
Qed.

Lemma discover_prints_result (prog verb : string) (rest : list string) (p : process) :
  Py.lower verb = "discover" ->
  main json_dumps json_loads py_int (prog :: verb :: rest) p =
    prints_result json_dumps
      (do! timeout := lift (match rest with [] => Ok 3%Z | a :: _ => py_int a end) in
       do! devices := (fun w => (discover_devices (inject_Z timeout) (udp w), w)) in
       ret (VDict [("devices", devices)])) p.
Proof.
  intros Hverb. rewrite main_on_verb, Hverb.
  change (dispatch json_dumps json_loads py_int "discover" (prog :: verb :: rest))
    with (cmd_discover json_dumps py_int (prog :: verb :: rest)).
  unfold cmd_discover. cbn [length Nat.ltb Nat.leb].
  unfold prints_result, mbind, lift, ret.
  destruct rest as [| a more]; cbn [length Nat.ltb Nat.leb].
  - unfold cbind, cret, pure.
    destruct (discover_devices _ _) as [devices | e]; now destruct p.
  - unfold arg. cbn [lookup list_lookup].
    unfold cbind, cret, pure. destruct (py_int a) as [timeout | e]; [| now destruct p].
    destruct (discover_devices _ _) as [devices | e]; now destruct p.
Qed.

(** The whole of the [toggle] branch. *)
Lemma toggle_outcome (prog verb ip : string) (more : list string) (p : process) :
  Py.lower verb = "toggle" ->
  main json_dumps json_loads py_int (prog :: verb :: ip :: more) p =
  match get_state json_dumps json_loads (new_device ip) (p_world p) with
  | (Ok current, w1) =>
      match Py.contains current "error" with
      | Ok true =>
          (SysExit 1, {| p_world := w1; p_stdout := p_stdout p ++ [json_dumps current] |})
      | Ok false =>
          prints_result json_dumps
            (do! relay_state := lift (Py.get current "relay_state") in
             do! result := (if Py.eq_one relay_state
                            then turn_off json_dumps json_loads (new_device ip)
                            else turn_on json_dumps json_loads (new_device ip)) in
             do! state := get_state json_dumps json_loads (new_device ip) in
             ret (VDict [("result", result); ("state", state)]))
            {| p_world := w1; p_stdout := p_stdout p |}
      | Raise e =>
          (SysExit 1,
           {| p_world := w1;
              p_stdout := p_stdout p ++ [json_dumps (VDict [("error", VStr (str_exn e))])] |})
      end
  | (Raise e, w1) =>
      (SysExit 1,
       {| p_world := w1;
          p_stdout := p_stdout p ++ [json_dumps (VDict [("error", VStr (str_exn e))])] |})
  end.
Proof.
  intros Hverb. rewrite main_on_verb, Hverb.
  change (dispatch json_dumps json_loads py_int "toggle" (prog :: verb :: ip :: more))
    with (cmd_toggle json_dumps json_loads (prog :: verb :: ip :: more)).
  unfold cmd_toggle, require_args. cbn [length Nat.ltb Nat.leb].
  unfold arg. cbn [lookup list_lookup].
  unfold cbind at 1 2 3. unfold cret, run at 1.
  destruct (get_state _ _ _ (p_world p)) as [[current | e] w1]; [| reflexivity].
  unfold cbind at 1, pure at 1.
  destruct (Py.contains current "error") as [[|] | e]; [reflexivity | | reflexivity].
  unfold prints_result, mbind, lift, ret, cbind, pure, run. cbn [p_world p_stdout].
  destruct (Py.get current "relay_state") as [relay_state | e]; [| reflexivity].
  destruct (Py.eq_one relay_state).
  - destruct (turn_off _ _ _ _) as [[r | e] w2]; [| reflexivity].
    cbn [p_world p_stdout]. now destruct (get_state _ _ _ _) as [[s | e] w3].
  - destruct (turn_on _ _ _ _) as [[r | e] w2]; [| reflexivity].
    cbn [p_world p_stdout]. now destruct (get_state _ _ _ _) as [[s | e] w3].
Qed.




Lemma verb_needs_ip (prog verb : string) (p : process) :
  Py.lower verb ∈ ["info"; "state"; "on"; "off"; "toggle"; "emeter"; "reboot"] ->
  main json_dumps json_loads py_int [prog; verb] p =
    (SysExit 1,
     {| p_world := p_world p;
        p_stdout := p_stdout p ++ [json_dumps (Py.error_dict "IP address required")] |}).
Proof.
  intros Hverb. rewrite main_on_verb.
  repeat (apply elem_of_cons in Hverb; destruct Hverb as [E | Hverb];
          [rewrite E; reflexivity |]).
  now apply elem_of_nil in Hverb.
Qed.

Lemma led_needs_state (prog verb : string) (rest : list string) (p : process) :
  Py.lower verb = "led" ->
  (length rest < 2)%nat ->
  main json_dumps json_loads py_int (prog :: verb :: rest) p =
    (SysExit 1,
     {| p_world := p_world p;
        p_stdout :=
          p_stdout p ++
          [json_dumps (Py.error_dict "IP address and state (on/off) required")] |}).
Proof.
  intros Hverb Hlen. rewrite main_on_verb, Hverb.
  destruct rest as [| ip [| a more]]; [reflexivity | reflexivity |].
  cbn [length] in Hlen. lia.
Qed.

Lemma main_unknown_verb (prog verb : string) (rest : list string) (p : process) :
  Py.lower verb ∉
    ["discover"; "info"; "state"; "on"; "off"; "toggle"; "emeter"; "led"; "reboot"] ->
  main json_dumps json_loads py_int (prog :: verb :: rest) p =
    (SysExit 1,
     {| p_world := p_world p;
        p_stdout :=
          p_stdout p ++
          [json_dumps (Py.error_dict ("Unknown command: " +:+ Py.lower verb))] |}).
Proof.
  intros Hverb. rewrite main_on_verb. unfold dispatch.
  repeat match goal with
         | |- context [String.eqb (Py.lower verb) ?s] =>
             destruct (String.eqb_spec (Py.lower verb) s) as [E | _];
             [exfalso; apply Hverb; rewrite E; set_solver |]
         end.
  reflexivity.
Qed.

(** C8, amended.  [main] prints exactly one JSON text and the exit code is 0
    or 1; with code 1 the printed value holds "error".  The argument checks
    leave with code 1: no verb, an unknown verb, a verb other than
    [discover] without its IP argument, [led] without its state.  So does an
    exception that reaches the handler of [main].  Every other run ends as
    [prints_result] says: what the device operations returned is printed as
    it is with exit code 0, an error mapping included, and the exit code is
    1 only when an operation raises ([int] on the timeout or the delay, a
    state read on a reply that is no mapping).  [toggle] alone inspects a
    result: a first state read that holds "error" is printed as it is with
    exit code 1.  In particular [info] and [emeter] end with exit code 0
    whatever the device or the network did. *)
Theorem cli_exit_code (argv : list string) (p : process) :
  (exists v,
      p_stdout (main json_dumps json_loads py_int argv p).2 = p_stdout p ++ [json_dumps v] /\
      (exit_code (main json_dumps json_loads py_int argv p).1 = 0%Z \/
       exit_code (main json_dumps json_loads py_int argv p).1 = 1%Z) /\
      (exit_code (main json_dumps json_loads py_int argv p).1 = 1%Z ->
       Py.contains v "error" = Ok true)) /\
  ((length argv < 2)%nat ->
   main json_dumps json_loads py_int argv p =
     (SysExit 1,
      {| p_world := p_world p; p_stdout := p_stdout p ++ [json_dumps usage] |})) /\
  (forall prog verb rest,
      argv = prog :: verb :: rest ->
      (Py.lower verb ∉
         ["discover"; "info"; "state"; "on"; "off"; "toggle"; "emeter"; "led"; "reboot"] ->
       main json_dumps json_loads py_int argv p =
         (SysExit 1,
          {| p_world := p_world p;
             p_stdout :=
               p_stdout p ++
               [json_dumps (Py.error_dict ("Unknown command: " +:+ Py.lower verb))] |})) /\
      (Py.lower verb ∈ ["info"; "state"; "on"; "off"; "toggle"; "emeter"; "reboot"] ->
       rest = [] ->
       main json_dumps json_loads py_int argv p =
         (SysExit 1,
          {| p_world := p_world p;
             p_stdout := p_stdout p ++ [json_dumps (Py.error_dict "IP address required")] |})) /\
      (Py.lower verb = "led" ->
       (length rest < 2)%nat ->
       main json_dumps json_loads py_int argv p =
         (SysExit 1,
          {| p_world := p_world p;
             p_stdout :=
               p_stdout p ++
               [json_dumps (Py.error_dict "IP address and state (on/off) required")] |})) /\
      (forall e p',
          dispatch json_dumps json_loads py_int (Py.lower verb) argv p = (Exc e, p') ->
          main json_dumps json_loads py_int argv p =
            (SysExit 1,
             {| p_world := p_world p';
                p_stdout :=
                  p_stdout p ++ [json_dumps (VDict [("error", VStr (str_exn e))])] |})) /\
      (Py.lower verb = "discover" ->
       main json_dumps json_loads py_int argv p =
         prints_result json_dumps
           (do! timeout := lift (match rest with [] => Ok 3%Z | a :: _ => py_int a end) in
            do! devices := (fun w => (discover_devices (inject_Z timeout) (udp w), w)) in
            ret (VDict [("devices", devices)])) p) /\
      (forall ip more,
          rest = ip :: more ->
          (Py.lower verb = "info" ->
           main json_dumps json_loads py_int argv p =
             prints_result json_dumps (get_info json_dumps json_loads (new_device ip)) p) /\
          (Py.lower verb = "state" ->
           main json_dumps json_loads py_int argv p =
             prints_result json_dumps (get_state json_dumps json_loads (new_device ip)) p) /\
          (Py.lower verb = "emeter" ->
           main json_dumps json_loads py_int argv p =
             prints_result json_dumps
               (get_emeter_realtime json_dumps json_loads (new_device ip)) p) /\
          (forall a more',
              Py.lower verb = "led" -> more = a :: more' ->
              main json_dumps json_loads py_int argv p =
                prints_result json_dumps
                  (set_led json_dumps json_loads (new_device ip)
                     (existsb (String.eqb (Py.lower a)) ["on"; "1"; "true"])) p) /\
          (Py.lower verb = "reboot" ->
           main json_dumps json_loads py_int argv p =
             prints_result json_dumps
               (do! delay := lift (match more with [] => Ok 1%Z | a :: _ => py_int a end) in
                reboot json_dumps json_loads (new_device ip) delay) p) /\
          (forall on : bool,
              Py.lower verb = (if on then "on" else "off") ->
              main json_dumps json_loads py_int argv p =
                prints_result json_dumps
                  (do! result := (if on then turn_on json_dumps json_loads (new_device ip)
                                  else turn_off json_dumps json_loads (new_device ip)) in
                   do! state := get_state json_dumps json_loads (new_device ip) in
                   ret (VDict [("result", result); ("state", state)])) p) /\
          (Py.lower verb = "toggle" ->
           main json_dumps json_loads py_int argv p =
             match get_state json_dumps json_loads (new_device ip) (p_world p) with
             | (Ok current, w1) =>
                 match Py.contains current "error" with
                 | Ok true =>
                     (SysExit 1,
                      {| p_world := w1; p_stdout := p_stdout p ++ [json_dumps current] |})
                 | Ok false =>
                     prints_result json_dumps
                       (do! relay_state := lift (Py.get current "relay_state") in
                        do! result := (if Py.eq_one relay_state
                                       then turn_off json_dumps json_loads (new_device ip)
                                       else turn_on json_dumps json_loads (new_device ip)) in
                        do! state := get_state json_dumps json_loads (new_device ip) in
                        ret (VDict [("result", result); ("state", state)]))
                       {| p_world := w1; p_stdout := p_stdout p |}
                 | Raise e =>
                     (SysExit 1,
                      {| p_world := w1;
                         p_stdout :=
                           p_stdout p ++
                           [json_dumps (VDict [("error", VStr (str_exn e))])] |})
                 end
             | (Raise e, w1) =>
                 (SysExit 1,
                  {| p_world := w1;
                     p_stdout :=
                       p_stdout p ++ [json_dumps (VDict [("error", VStr (str_exn e))])] |})
             end) /\
          (Py.lower verb ∈ ["info"; "emeter"] ->
           exit_code (main json_dumps json_loads py_int argv p).1 = 0%Z))) /\
  (forall op,
      main json_dumps json_loads py_int argv p = prints_result json_dumps op p ->
      (forall result,
          (op (p_world p)).1 = Ok result ->
          exit_code (main json_dumps json_loads py_int argv p).1 = 0%Z /\
          p_stdout (main json_dumps json_loads py_int argv p).2 =
            p_stdout p ++ [json_dumps result]) /\
      (forall e,
          (op (p_world p)).1 = Raise e ->
          exit_code (main json_dumps json_loads py_int argv p).1 = 1%Z /\
          p_stdout (main json_dumps json_loads py_int argv p).2 =
            p_stdout p ++ [json_dumps (VDict [("error", VStr (str_exn e))])])).
Proof.
  split; [| split; [| split]]; cycle 3.
  { intros op ->. unfold prints_result.
    destruct (op (p_world p)) as [[r | e0] w]; cbn [fst snd exit_code p_stdout].
    - split; [intros result [= <-]; now split | discriminate].
    - split; [discriminate | intros e [= <-]; now split]. }
  - pose proof (main_reports argv p) as H.
    destruct (main json_dumps json_loads py_int argv p) as [[u | e | code] p'];
      cbn [fst snd exit_code].
    + destruct H as [v Hv]. exists v. split; [exact Hv |]. split; [now left | discriminate].
    + destruct H.
    + destruct H as (-> & v & Hv & Herr). exists v. split; [exact Hv |].
      split; [now right | intros _; exact Herr].
  - intros Hlen. destruct argv as [| prog [| verb rest]]; [reflexivity .. |].
    cbn [length] in Hlen. lia.
  - intros prog verb rest ->.
    split; [apply main_unknown_verb |].
    split; [intros Hverb ->; now apply verb_needs_ip |].
    split; [now apply led_needs_state |].
    split.
    { intros e p' Hexc. rewrite main_on_verb, Hexc.
      pose proof (dispatch_reports (Py.lower verb) (prog :: verb :: rest) p) as H.
      rewrite Hexc in H. now rewrite H. }
    split; [apply discover_prints_result |].
    intros host more ->.
    split; [apply info_prints_result |].
    split; [apply state_prints_result |].
    split; [apply emeter_prints_result |].
    split; [intros a more' Hverb ->; now apply led_prints_result |].
    split; [apply reboot_prints_result |].
    split; [intros on; apply relay_prints_result |].
    split; [apply toggle_outcome |].
    intros Hverb.
    apply elem_of_cons in Hverb. destruct Hverb as [E | Hverb].
    + rewrite (info_prints_result _ _ _ _ _ E). unfold prints_result, get_info.
      destruct (send_command_ok host 9999 (cmd "system" "get_sysinfo" []) (p_world p))
        as (r & w' & Hr).
      cbn [ip port new_device]. now rewrite Hr.
    + apply elem_of_cons in Hverb. destruct Hverb as [E | Hverb];
        [| now apply elem_of_nil in Hverb].
      rewrite (emeter_prints_result _ _ _ _ _ E). unfold prints_result, get_emeter_realtime.
      destruct (send_command_ok host 9999 (cmd "emeter" "get_realtime" []) (p_world p))
        as (r & w' & Hr).
      cbn [ip port new_device]. now rewrite Hr.
Qed.

End CliFacts.


(** The run of [toggle] against a plug that is on. *)
Example toggle_turns_a_plug_off :
  calls (p_world
           (main Fixture.json_dumps Fixture.json_loads Fixture.py_int
              ["kasa_api.py"; "toggle"; "10.0.0.2"] (Fixture.start (Fixture.plug 1))).2) =
    [sysinfo_call "10.0.0.2"; relay_call "10.0.0.2" 0; sysinfo_call "10.0.0.2"] /\
  p_stdout
    (main Fixture.json_dumps Fixture.json_loads Fixture.py_int
       ["kasa_api.py"; "toggle"; "10.0.0.2"] (Fixture.start (Fixture.plug 1))).2 =
    [Fixture.json_dumps
       (VDict [("result", Fixture.relay_ack_value);
               ("state", VDict [("state", VStr "off"); ("relay_state", VInt 0)])])].
Proof. split; vm_compute; reflexivity. Qed.


(** C8, as stated, fails: [info] against an address where nothing answers
    prints the error mapping of the transport and the exit code is 0. *)
Lemma info_on_unreachable_device_exits_0 :
  p_stdout
    (main Fixture.json_dumps Fixture.json_loads Fixture.py_int
       ["kasa_api.py"; "info"; "10.0.0.2"]
       (Fixture.start (fun _ _ => Fixture.unreachable))).2 =
    [Fixture.json_dumps (Py.error_dict "Connection timeout")] /\
  exit_code
    (main Fixture.json_dumps Fixture.json_loads Fixture.py_int
       ["kasa_api.py"; "info"; "10.0.0.2"]
       (Fixture.start (fun _ _ => Fixture.unreachable))).1 = 0%Z.
Proof. split; vm_compute; reflexivity. Qed.

Lemma cli_exit_code_witness :
  main Fixture.json_dumps Fixture.json_loads Fixture.py_int
    ["kasa_api.py"; "STATE"; "10.0.0.2"]
    (Fixture.start (fun _ _ => Fixture.unreachable)) =
    prints_result Fixture.json_dumps
      (get_state Fixture.json_dumps Fixture.json_loads (new_device "10.0.0.2"))
      (Fixture.start (fun _ _ => Fixture.unreachable)) /\
  exit_code
    (main Fixture.json_dumps Fixture.json_loads Fixture.py_int
       ["kasa_api.py"; "EMETER"; "10.0.0.2"]
       (Fixture.start (fun _ _ => Fixture.unreachable))).1 = 0%Z.
Proof.
  split.
  - destruct (cli_exit_code Fixture.json_dumps Fixture.json_loads Fixture.py_int
                ["kasa_api.py"; "STATE"; "10.0.0.2"]
                (Fixture.start (fun _ _ => Fixture.unreachable))) as (_ & _ & H & _).
    destruct (H "kasa_api.py" "STATE" ["10.0.0.2"] eq_refl) as (_ & _ & _ & _ & _ & H1).
    destruct (H1 "10.0.0.2" [] eq_refl) as (_ & H2 & _).
    exact (H2 eq_refl).
  - destruct (cli_exit_code Fixture.json_dumps Fixture.json_loads Fixture.py_int
                ["kasa_api.py"; "EMETER"; "10.0.0.2"]
                (Fixture.start (fun _ _ => Fixture.unreachable))) as (_ & _ & H & _).
    destruct (H "kasa_api.py" "EMETER" ["10.0.0.2"] eq_refl) as (_ & _ & _ & _ & _ & H1).
    destruct (H1 "10.0.0.2" [] eq_refl) as (_ & _ & _ & _ & _ & _ & _ & H2).
    apply H2. apply elem_of_cons. right. apply elem_of_cons. left. reflexivity.
Defined.

(** * Further properties *)

(** ** The codec, beyond the round trip *)

Section CodecMore.

Import Codec.

(** The loop of [decrypt] never fails: each character is the XOR of a byte
    with the byte before it (the start key for the first). *)
Lemma decrypt_loop_closed (data : bytes) :
  forall key acc,
    key < 256 ->
    decrypt_loop key acc data =
      Ok (acc ++ zip_with N.lxor (key :: map Byte.to_N data) (map Byte.to_N data)).
Proof.
  induction data as [| b rest IH]; intros key acc Hkey; cbn [decrypt_loop map zip_with].
  - now rewrite app_nil_r.
  - pose proof (to_N_lt_256 b) as Hb.
    pose proof (lxor_below_256 key (Byte.to_N b) Hkey Hb) as Ha.
    unfold chr.
    replace (N.lxor key (Byte.to_N b) <? 1114112) with true
      by (symmetry; apply N.ltb_lt; lia).
    cbn [bind]. rewrite (IH _ _ Hb). now rewrite <- app_assoc.
Qed.

Lemma keystream_latin1 (ns : list N) :
  forall key, key < 256 -> Forall (fun n => n < 256) ns ->
              Forall latin1 (zip_with N.lxor (key :: ns) ns).
Proof.
  induction ns as [| n rest IH]; intros key Hkey Hall; cbn [zip_with].
  - constructor.
  - inversion Hall as [| ? ? Hn Hrest]; subst. constructor.
    + unfold latin1. pose proof (lxor_below_256 key n Hkey Hn). lia.
    + now apply IH.
Qed.

(** The loop of [encrypt], run on what [decrypt] produced from [data] with
    the same start key, writes [data] back. *)
Lemma encrypt_loop_of_keystream (data : bytes) :
  forall key acc,
    key < 256 ->
    encrypt_loop key acc
      (zip_with N.lxor (key :: map Byte.to_N data) (map Byte.to_N data)) =
    Ok (acc ++ data).
Proof.
  induction data as [| b rest IH]; intros key acc Hkey; cbn [map zip_with encrypt_loop].
  - now rewrite app_nil_r.
  - unfold ord.
    rewrite <- N.lxor_assoc, N.lxor_nilpotent, N.lxor_0_l, Byte.of_to_N.
    rewrite (IH _ _ (to_N_lt_256 b)). now rewrite <- app_assoc.
Qed.

Lemma encrypt_body_decrypts (P : pystr) (frame : bytes) :
  encrypt P = Ok frame -> decrypt (drop 4 frame) = Ok P.
Proof.
  intros H.
  assert (Hacc : Forall latin1 P /\ len P < 2 ^ 32) by (apply encrypt_accepts; eauto).
  destruct (pack_I_ok _ (proj2 Hacc)) as (header & Hpack & Hh4 & _).
  unfold encrypt in H. rewrite Hpack in H. cbn [bind] in H.
  destruct (encrypt_loop_ok _ 171 _ _ eq_refl H) as (body & -> & _ & _ & _ & Hdec).
  rewrite (drop_app_length' header body 4) by (symmetry; exact Hh4).
  apply (Hdec []).
Qed.

(** X1.  [decrypt] accepts every sequence of bytes: it returns one character
    per byte, each with a code point of at most 255, the i-th being the XOR
    of byte i with byte i-1 (with 171 for the first). *)
Theorem decrypt_total (data : bytes) :
  exists text,
    decrypt data = Ok text /\
    length text = length data /\
    Forall latin1 text /\
    text = zip_with N.lxor (171 :: map Byte.to_N data) (map Byte.to_N data).
Proof.
  eexists. split; [apply (decrypt_loop_closed data 171 [] eq_refl) |].
  cbn [app]. split; [| split; [| reflexivity]].
  - rewrite length_zip_with. cbn [length]. rewrite !length_map. lia.
  - apply keystream_latin1; [reflexivity |].
    clear. induction data as [| b rest IH]; constructor;
      [apply to_N_lt_256 | exact IH].
Qed.

(** X2.  Encrypting what [decrypt] returned gives the bytes back behind a
    header that holds their number, for every sequence of fewer than 2^32
    bytes. *)
Theorem encrypt_decrypt_roundtrip (data : bytes) :
  len data < 2 ^ 32 ->
  exists text header,
    decrypt data = Ok text /\
    encrypt text = Ok (header ++ data) /\
    length header = 4%nat /\
    be_value header = len data.
Proof.
  intros Hlen.
  exists (zip_with N.lxor (171 :: map Byte.to_N data) (map Byte.to_N data)).
  destruct (pack_I_ok _ Hlen) as (header & Hpack & Hh4 & Hval).
  exists header. split; [apply (decrypt_loop_closed data 171 [] eq_refl) |].
  split; [| now split].
  unfold encrypt, len. unfold len in Hpack.
  rewrite length_zip_with. cbn [length]. rewrite !length_map.
  replace (S (length data) `min` length data)%nat with (length data) by lia.
  rewrite Hpack. cbn [bind].
  apply encrypt_loop_of_keystream. reflexivity.
Qed.

Lemma encrypt_decrypt_roundtrip_witness :
  exists text header,
    decrypt [Byte.xd0; Byte.xf2; Byte.x00; Byte.xff] = Ok text /\
    encrypt text = Ok (header ++ [Byte.xd0; Byte.xf2; Byte.x00; Byte.xff]) /\
    length header = 4%nat /\
    be_value header = len [Byte.xd0; Byte.xf2; Byte.x00; Byte.xff].
Proof.
  apply (encrypt_decrypt_roundtrip [Byte.xd0; Byte.xf2; Byte.x00; Byte.xff]).
  vm_compute. reflexivity.
Defined.

(** X3.  [encrypt] is injective: two texts with the same frame are equal. *)
Theorem encrypt_injective (P Q : pystr) (frame : bytes) :
  encrypt P = Ok frame -> encrypt Q = Ok frame -> P = Q.
Proof.
  intros HP HQ.
  apply encrypt_body_decrypts in HP. apply encrypt_body_decrypts in HQ.
  congruence.
Qed.

Lemma encrypt_injective_witness : [104; 105] = [104; 105].
Proof.
  apply (encrypt_injective [104; 105] [104; 105]
           [Byte.x00; Byte.x00; Byte.x00; Byte.x02; Byte.xc3; Byte.xaa]);
    reflexivity.
Defined.

Lemma map_is_fmap {A B} (f : A -> B) (l : list A) : map f l = f <$> l.
Proof. induction l as [| x l IH]; [reflexivity | cbn; now rewrite IH]. Qed.

Lemma lxor_cancel_left (x y z : N) : N.lxor (N.lxor x y) (N.lxor x z) = N.lxor y z.
Proof.
  apply N.bits_inj. intros n. rewrite !N.lxor_spec.
  now destruct (N.testbit x n), (N.testbit y n), (N.testbit z n).
Qed.

Lemma lxor_shift (k c c' : N) : N.lxor (N.lxor c c') (N.lxor k c) = N.lxor k c'.
Proof.
  apply N.bits_inj. intros n. rewrite !N.lxor_spec.
  now destruct (N.testbit k n), (N.testbit c n), (N.testbit c' n).
Qed.

Lemma decrypt_closed (data : bytes) :
  decrypt data = Ok (zip_with N.lxor (171 :: map Byte.to_N data) (map Byte.to_N data)).
Proof. exact (decrypt_loop_closed data 171 [] eq_refl). Qed.

(** X4.  A damaged byte of the ciphertext damages two characters at most:
    replacing byte [i] leaves every character of the decrypted text other
    than [i] and [i+1] as it was. *)
Theorem decrypt_error_locality (data : bytes) (i : nat) (b' : Byte.byte)
    (text text' : pystr) :
  decrypt data = Ok text ->
  decrypt (<[i := b']> data) = Ok text' ->
  forall j, j <> i -> j <> S i -> text' !! j = text !! j.
Proof.
  rewrite !decrypt_closed. intros H H'.
  assert (Ht : text = zip_with N.lxor (171 :: map Byte.to_N data) (map Byte.to_N data))
    by congruence.
  assert (Ht' : text' = zip_with N.lxor (171 :: map Byte.to_N (<[i:=b']> data))
                          (map Byte.to_N (<[i:=b']> data))) by congruence.
  clear H H'. subst text text'. unfold bytes, pystr, char in *.
  intros j Hi HSi.
  rewrite (map_is_fmap Byte.to_N data), (map_is_fmap Byte.to_N (<[i:=b']> data)).
  rewrite list_fmap_insert, !lookup_zip_with.
  rewrite (list_lookup_insert_ne _ i j) by congruence.
  destruct j as [| k]; [reflexivity |]. cbn [lookup list_lookup].
  change ((<[i:=Byte.to_N b']> (Byte.to_N <$> data)) !! k)
    with (list_lookup k (<[i:=Byte.to_N b']> (Byte.to_N <$> data))).
  change (list_lookup k (<[i:=Byte.to_N b']> (Byte.to_N <$> data)))
    with ((<[i:=Byte.to_N b']> (Byte.to_N <$> data)) !! k).
  now rewrite (list_lookup_insert_ne _ i k) by congruence.
Qed.

Lemma decrypt_error_locality_witness :
  [104; 101; 108; 255; 252] !! 2%nat = [104; 101; 108; 108; 111] !! 2%nat.
Proof.
  refine (decrypt_error_locality
            [Byte.xc3; Byte.xa6; Byte.xca; Byte.xa6; Byte.xc9] 3 Byte.x35
            [104; 101; 108; 108; 111] _ _ _ 2%nat _ _); try discriminate.
  - reflexivity.
  - vm_compute. reflexivity.
Defined.

(** Two runs of the loop of [encrypt] on the same text from two keys: the
    outputs differ, byte by byte, by the XOR of the keys. *)
Lemma encrypt_loop_key_shift (s : pystr) :
  forall k k' acc acc' out out',
    k < 256 -> k' < 256 ->
    encrypt_loop k acc s = Ok out ->
    encrypt_loop k' acc' s = Ok out' ->
    exists body body',
      out = acc ++ body /\ out' = acc' ++ body' /\
      map Byte.to_N body' = map (N.lxor (N.lxor k k')) (map Byte.to_N body).
Proof.
  induction s as [| c rest IH]; intros k k' acc acc' out out' Hk Hk' H H';
    cbn [encrypt_loop] in H, H'.
  - inversion H; inversion H'; subst. exists [], []. now rewrite !app_nil_r.
  - unfold ord in H, H'.
    destruct (Byte.of_N (N.lxor k c)) as [b |] eqn:Eb; [| discriminate].
    destruct (Byte.of_N (N.lxor k' c)) as [b' |] eqn:Eb'; [| discriminate].
    apply Byte.to_of_N in Eb, Eb'.
    assert (Ha : N.lxor k c < 256) by (rewrite <- Eb; apply to_N_lt_256).
    assert (Ha' : N.lxor k' c < 256) by (rewrite <- Eb'; apply to_N_lt_256).
    destruct (IH _ _ _ _ _ _ Ha Ha' H H') as (body & body' & -> & -> & Hmap).
    exists (b :: body), (b' :: body'). rewrite <- !app_assoc.
    split; [reflexivity |]. split; [reflexivity |].
    cbn [map]. rewrite Eb, Eb', Hmap. f_equal.
    + rewrite (N.lxor_comm k c), (N.lxor_comm k k'), (N.lxor_comm k' c).
      symmetry. rewrite (N.lxor_comm k' k). apply lxor_shift.
    + f_equal. rewrite (N.lxor_comm k c), (N.lxor_comm k' c). now rewrite lxor_cancel_left.
Qed.

Lemma encrypt_loop_cascade (pre post : pystr) (c c' : char) :
  forall k acc out out',
    k < 256 ->
    encrypt_loop k acc (pre ++ c :: post) = Ok out ->
    encrypt_loop k acc (pre ++ c' :: post) = Ok out' ->
    exists bpre rest rest',
      length bpre = length pre /\
      out = acc ++ bpre ++ rest /\ out' = acc ++ bpre ++ rest' /\
      map Byte.to_N rest' = map (N.lxor (N.lxor c c')) (map Byte.to_N rest).
Proof.
  induction pre as [| p pre IH]; intros k acc out out' Hk H H';
    cbn [app encrypt_loop] in H, H'; unfold ord in H, H'.
  - destruct (Byte.of_N (N.lxor k c)) as [b |] eqn:Eb; [| discriminate].
    destruct (Byte.of_N (N.lxor k c')) as [b' |] eqn:Eb'; [| discriminate].
    apply Byte.to_of_N in Eb, Eb'.
    assert (Ha : N.lxor k c < 256) by (rewrite <- Eb; apply to_N_lt_256).
    assert (Ha' : N.lxor k c' < 256) by (rewrite <- Eb'; apply to_N_lt_256).
    destruct (encrypt_loop_key_shift _ _ _ _ _ _ _ Ha Ha' H H')
      as (body & body' & -> & -> & Hmap).
    exists [], (b :: body), (b' :: body'). rewrite <- !app_assoc.
    split; [reflexivity |]. split; [reflexivity |]. split; [reflexivity |].
    rewrite lxor_cancel_left in Hmap.
    cbn [map]. rewrite Eb, Eb', Hmap. f_equal. now rewrite lxor_shift.
  - destruct (Byte.of_N (N.lxor k p)) as [b |] eqn:Eb; [| discriminate].
    apply Byte.to_of_N in Eb.
    assert (Ha : N.lxor k p < 256) by (rewrite <- Eb; apply to_N_lt_256).
    destruct (IH _ _ _ _ Ha H H') as (bpre & rest & rest' & Hlen & -> & -> & Hmap).
    exists (b :: bpre), rest, rest'. rewrite <- !app_assoc.
    split; [cbn [length]; now rewrite Hlen |]. now repeat split.
Qed.

(** X5.  A changed character changes the whole rest of the frame: when two
    texts differ in one character only, their frames agree up to that
    position and, from there on, each byte of one is the byte of the other
    XORed with the difference of the two characters, so that no byte from
    that position on is the same. *)
Theorem encrypt_cascade (pre post : pystr) (c c' : char) (frame frame' : bytes) :
  encrypt (pre ++ c :: post) = Ok frame ->
  encrypt (pre ++ c' :: post) = Ok frame' ->
  take (4 + length pre) frame' = take (4 + length pre) frame /\
  map Byte.to_N (drop (4 + length pre) frame') =
    map (N.lxor (N.lxor c c')) (map Byte.to_N (drop (4 + length pre) frame)) /\
  (c <> c' ->
   forall j b b',
     (4 + length pre <= j)%nat ->
     frame !! j = Some b -> frame' !! j = Some b' -> b <> b').
Proof.
  intros H H'.
  assert (Hacc : Forall latin1 (pre ++ c :: post) /\ len (pre ++ c :: post) < 2 ^ 32)
    by (apply encrypt_accepts; eauto).
  destruct (pack_I_ok _ (proj2 Hacc)) as (header & Hpack & Hh4 & _).
  assert (Hpack' : pack_I (len (pre ++ c' :: post)) = Ok header).
  { rewrite <- Hpack. f_equal. unfold len. now rewrite !length_app. }
  unfold encrypt in H, H'. rewrite Hpack in H. rewrite Hpack' in H'.
  cbn [bind] in H, H'.
  destruct (encrypt_loop_cascade pre post c c' 171 header frame frame' eq_refl H H')
    as (bpre & rest & rest' & Hlen & -> & -> & Hmap).
  assert (Hn : (4 + length pre)%nat = length (header ++ bpre))
    by (rewrite length_app; lia).
  rewrite !app_assoc, Hn, !take_app_length, !drop_app_length.
  split; [reflexivity |]. split; [exact Hmap |].
  intros Hne j b b' Hj Hb Hb' ->. unfold bytes in *.
  assert (Hle : (length (header ++ bpre) <= j)%nat) by lia.
  rewrite lookup_app_r in Hb, Hb' by exact Hle.
  apply (f_equal (fun l => l !! (j - length (header ++ bpre))%nat)) in Hmap.
  rewrite !map_is_fmap, !list_lookup_fmap, Hb, Hb' in Hmap. cbn in Hmap.
  inversion Hmap as [Heq].
  apply Hne, N.lxor_eq.
  rewrite <- (N.lxor_0_r (Byte.to_N b')) in Heq at 1.
  rewrite (N.lxor_comm (N.lxor c c')) in Heq.
  apply (f_equal (N.lxor (Byte.to_N b'))) in Heq.
  rewrite <- !N.lxor_assoc, N.lxor_nilpotent, !N.lxor_0_l in Heq. now symmetry.
Qed.

Lemma encrypt_cascade_witness :
  take (4 + length [104; 101]) [Byte.x00; Byte.x00; Byte.x00; Byte.x04;
                                Byte.xc3; Byte.xa6; Byte.xcb; Byte.xa7] =
  take (4 + length [104; 101]) [Byte.x00; Byte.x00; Byte.x00; Byte.x04;
                                Byte.xc3; Byte.xa6; Byte.xca; Byte.xa6].
Proof.
  refine (proj1 (encrypt_cascade [104; 101] [108] 108 109 _ _ _ _));
    vm_compute; reflexivity.
Defined.

End CodecMore.

(** ** The transport client and the facade, beyond the claims *)

Section TransportMore.

Variable json_dumps : value -> pystr.
Variable json_loads : pystr -> pyresult value.

(** X6.  When one [recv] delivers the whole frame of a text, which it can
    only do for a frame of at most 4096 bytes, [send_command] returns what
    [json.loads] makes of that text: the value, or the error mapping of the
    handler when the text is not JSON. *)
Theorem send_command_decodes_peer_frame (ip : string) (port : Z) (command : value)
    (w : world) (sent frame : bytes) (text : pystr) :
  let x := tcp w (calls w) {| c_ip := ip; c_port := port; c_command := command |} in
  Codec.encrypt (json_dumps command) = Ok sent ->
  x_socket x = Ok tt -> x_settimeout x = Ok tt -> x_connect x = Ok tt ->
  x_send x = Ok tt -> x_recv x = Ok frame -> x_close x = Ok tt ->
  Codec.len frame <= recv_bufsize ->
  Codec.encrypt text = Ok frame ->
  (send_command json_dumps json_loads ip port command w).1 =
    Ok (match json_loads text with
        | Ok response => response
        | Raise e => send_command_except e
        end).
Proof.
  intros x He Hs Ht Hc Hd Hr Hx _ Hframe. unfold send_command, send_command_try.
  fold x. rewrite He, Hs, Ht, Hc, Hd, Hr, Hx. cbn [bind].
  rewrite (encrypt_body_decrypts text frame Hframe). cbn [bind].
  now destruct (json_loads text).
Qed.

(** X7.  The length header of a reply is never read: two replies that agree
    after their first four bytes give the same outcome, and a reply of four
    bytes or fewer is treated as one with an empty body. *)
Theorem reply_header_is_not_read (command : value) (x : exchange) (d1 d2 : bytes) :
  (drop 4 d1 = drop 4 d2 ->
   send_command_try json_dumps json_loads command (with_recv x (Ok d1)) =
   send_command_try json_dumps json_loads command (with_recv x (Ok d2))) /\
  ((length d1 <= 4)%nat ->
   send_command_try json_dumps json_loads command (with_recv x (Ok d1)) =
   send_command_try json_dumps json_loads command (with_recv x (Ok []))).
Proof.
  assert (Hgen : forall a b, drop 4 a = drop 4 b ->
            send_command_try json_dumps json_loads command (with_recv x (Ok a)) =
            send_command_try json_dumps json_loads command (with_recv x (Ok b))).
  { intros a b Hab. unfold send_command_try, with_recv. cbn [x_socket x_settimeout
      x_connect x_send x_recv x_close].
    destruct (Codec.encrypt (json_dumps command)); [| reflexivity]. cbn [bind].
    destruct (x_socket x); [| reflexivity]. cbn [bind].
    destruct (x_settimeout x); [| reflexivity]. cbn [bind].
    destruct (x_connect x); [| reflexivity]. cbn [bind].
    destruct (x_send x); [| reflexivity]. cbn [bind].
    destruct (x_close x); [| reflexivity]. cbn [bind].
    now rewrite Hab. }
  split; [apply Hgen |].
  intros Hlen. apply Hgen. now rewrite drop_ge by exact Hlen.
Qed.

(** X8.  [get_state] passes a failure of the transport on: when the exchange
    raises [e], the caller of [get_state] receives the error mapping that
    [send_command] built for [e]. *)
Theorem get_state_surfaces_transport_error (self : KasaDevice) (w : world) (e : exception) :
  send_command_try json_dumps json_loads (cmd "system" "get_sysinfo" [])
    (tcp w (calls w)
       {| c_ip := ip self; c_port := port self;
          c_command := cmd "system" "get_sysinfo" [] |}) = Raise e ->
  (get_state json_dumps json_loads self w).1 = Ok (send_command_except e) /\
  Py.contains (send_command_except e) "error" = Ok true.
Proof.
  intros H.
  assert (Herr : Py.contains (send_command_except e) "error" = Ok true).
  { destruct (send_command_except_is_error e) as [msg ->]. reflexivity. }
  split; [| exact Herr].
  unfold get_state, get_info, mbind, lift, send_command. rewrite H. cbn [fst].
  unfold get_state_of. now rewrite Herr.
Qed.

(** X9.  On a response that is a mapping whose "system" entry, when there is
    one, is a mapping whose "get_sysinfo" entry, when there is one, is a
    mapping, [get_state] does not raise: it returns a mapping that holds
    "error", or one whose "state" is "on" or "off". *)
Theorem get_state_returns_a_mapping (self : KasaDevice) (w w' : world)
    (d : list (string * value)) :
  get_info json_dumps json_loads self w = (Ok (VDict d), w') ->
  (forall v, Py.dict_lookup "system" d = Some v ->
     exists sys, v = VDict sys /\
       forall g, Py.dict_lookup "get_sysinfo" sys = Some g -> exists fields, g = VDict fields) ->
  exists r,
    get_state json_dumps json_loads self w = (Ok (VDict r), w') /\
    ((exists e, Py.dict_lookup "error" r = Some e) \/
     Py.dict_lookup "state" r = Some (VStr "on") \/
     Py.dict_lookup "state" r = Some (VStr "off")).
Proof.
  intros Hinfo Hshape. rewrite (get_state_unfold _ _ _ _ _ _ Hinfo).
  unfold get_state_of, get_state_try, Py.contains, Py.subscript.
  destruct (Py.dict_lookup "error" d) as [e |] eqn:He; cbn [bind].
  { exists d. split; [reflexivity | left; eauto]. }
  destruct (Py.dict_lookup "system" d) as [v |] eqn:Hs; cbn [bind is_KeyError].
  2: { eexists. split; [reflexivity | left; eexists; reflexivity]. }
  destruct (Hshape v eq_refl) as (sys & -> & Hsys).
  destruct (Py.dict_lookup "get_sysinfo" sys) as [g |] eqn:Hg; cbn [bind is_KeyError].
  2: { eexists. split; [reflexivity | left; eexists; reflexivity]. }
  destruct (Hsys g eq_refl) as (fields & ->).
  destruct (Py.dict_lookup "relay_state" fields) as [rs |] eqn:Hr; cbn [bind is_KeyError].
  2: { eexists. split; [reflexivity | left; eexists; reflexivity]. }
  eexists. split; [reflexivity | right].
  destruct (Py.eq_one rs); [left | right]; reflexivity.
Qed.

(** X10.  The handler of [get_state] catches [KeyError] only: on a mapping
    without "error" whose "system" entry is not a mapping, or whose
    "get_sysinfo" entry is not one, [get_state] raises [TypeError] and
    returns no parse-error mapping. *)
Theorem get_state_raises_on_non_mapping (self : KasaDevice) (w w' : world)
    (d : list (string * value)) (v : value) :
  get_info json_dumps json_loads self w = (Ok (VDict d), w') ->
  Py.dict_lookup "error" d = None ->
  (forall m, v <> VDict m) ->
  (Py.dict_lookup "system" d = Some v \/
   exists sys, Py.dict_lookup "system" d = Some (VDict sys) /\
               Py.dict_lookup "get_sysinfo" sys = Some v) ->
  exists msg, get_state json_dumps json_loads self w = (Raise (TypeError msg), w').
Proof.
  intros Hinfo He Hv Hwhere. rewrite (get_state_unfold _ _ _ _ _ _ Hinfo).
  unfold get_state_of, get_state_try, Py.contains. rewrite He. cbn [bind].
  destruct Hwhere as [Hs | (sys & Hs & Hg)]; unfold Py.subscript at 1; rewrite Hs; cbn [bind].
  - destruct v; try (eexists; reflexivity). now destruct (Hv d0).
  - unfold Py.subscript at 1. rewrite Hg. cbn [bind].
    destruct v; try (eexists; reflexivity). now destruct (Hv d0).
Qed.

End TransportMore.

Lemma reply_header_is_not_read_witness :
  send_command_try Fixture.json_dumps Fixture.json_loads (cmd "system" "get_sysinfo" [])
    (with_recv (Fixture.answers "5") (Ok [Byte.xff; Byte.xff; Byte.xff; Byte.xff; Byte.x9e])) =
  send_command_try Fixture.json_dumps Fixture.json_loads (cmd "system" "get_sysinfo" [])
    (with_recv (Fixture.answers "5") (Ok [Byte.x00; Byte.x00; Byte.x00; Byte.x01; Byte.x9e])).
Proof.
  apply (proj1 (reply_header_is_not_read Fixture.json_dumps Fixture.json_loads
                  (cmd "system" "get_sysinfo" [])
                  (Fixture.answers "5")
                  [Byte.xff; Byte.xff; Byte.xff; Byte.xff; Byte.x9e]
                  [Byte.x00; Byte.x00; Byte.x00; Byte.x01; Byte.x9e])).
  reflexivity.
Defined.

Lemma get_state_surfaces_transport_error_witness :
  (get_state Fixture.json_dumps Fixture.json_loads (new_device "10.0.0.2")
     (Fixture.world_of (fun _ _ => Fixture.unreachable))).1 =
    Ok (send_command_except (SocketTimeout "timed out")) /\
  Py.contains (send_command_except (SocketTimeout "timed out")) "error" = Ok true.
Proof.
  apply (get_state_surfaces_transport_error Fixture.json_dumps Fixture.json_loads
           (new_device "10.0.0.2") (Fixture.world_of (fun _ _ => Fixture.unreachable))).
  reflexivity.
Defined.

Lemma get_state_returns_a_mapping_witness :
  exists r,
    get_state Fixture.json_dumps Fixture.json_loads (new_device "10.0.0.2")
      (Fixture.world_of (fun _ _ => Fixture.answers Fixture.bulb_text)) =
      (Ok (VDict r),
       {| tcp := fun _ _ => Fixture.answers Fixture.bulb_text;
          calls := [sysinfo_call "10.0.0.2"]; udp := Fixture.quiet_udp |}) /\
    ((exists e, Py.dict_lookup "error" r = Some e) \/
     Py.dict_lookup "state" r = Some (VStr "on") \/
     Py.dict_lookup "state" r = Some (VStr "off")).
Proof.
  apply (get_state_returns_a_mapping Fixture.json_dumps Fixture.json_loads
           (new_device "10.0.0.2")
           (Fixture.world_of (fun _ _ => Fixture.answers Fixture.bulb_text)) _
           [("system", VDict [("get_sysinfo", VDict [("alias", VStr "lamp")])])]).
  - reflexivity.
  - intros v Hv. inversion Hv; subst. eexists. split; [reflexivity |].
    intros g Hg. inversion Hg; subst. eexists. reflexivity.
Defined.

Lemma send_command_decodes_peer_frame_witness :
  (send_command Fixture.json_dumps Fixture.json_loads "10.0.0.2" 9999
     (cmd "system" "get_sysinfo" [])
     (Fixture.world_of (fun _ _ => Fixture.answers (Fixture.sysinfo_text "1")))).1 =
    Ok (Fixture.sysinfo_value (VInt 1)).
Proof.
  refine (send_command_decodes_peer_frame Fixture.json_dumps Fixture.json_loads
            "10.0.0.2" 9999 (cmd "system" "get_sysinfo" [])
            (Fixture.world_of (fun _ _ => Fixture.answers (Fixture.sysinfo_text "1")))
            (Fixture.frame_of (Fixture.dumps (cmd "system" "get_sysinfo" [])))
            (Fixture.frame_of (Fixture.sysinfo_text "1"))
            (pystr_of_string (Fixture.sysinfo_text "1")) _ _ _ _ _ _ _ _ _);
    first [reflexivity | vm_compute; discriminate].
Defined.

Lemma get_state_raises_on_non_mapping_witness :
  exists msg,
    get_state Fixture.json_dumps Fixture.json_loads_more (new_device "10.0.0.2")
      (Fixture.world_of (fun _ _ => Fixture.answers Fixture.odd_text)) =
      (Raise (TypeError msg),
       {| tcp := fun _ _ => Fixture.answers Fixture.odd_text;
          calls := [sysinfo_call "10.0.0.2"]; udp := Fixture.quiet_udp |}).
Proof.
  apply (get_state_raises_on_non_mapping Fixture.json_dumps Fixture.json_loads_more
           (new_device "10.0.0.2")
           (Fixture.world_of (fun _ _ => Fixture.answers Fixture.odd_text)) _
           [("system", VInt 5)] (VInt 5)).
  - reflexivity.
  - reflexivity.
  - discriminate.
  - now left.
Defined.

(** ** The dispatcher, verb by verb *)

Section CliMore.

Variable json_dumps : value -> pystr.
Variable json_loads : pystr -> pyresult value.
Variable py_int : string -> pyresult Z.

Lemma lower_ascii_idempotent (a : ascii) :
  Py.lower_ascii (Py.lower_ascii a) = Py.lower_ascii a.
Proof. destruct a as [[] [] [] [] [] [] [] []]; reflexivity. Qed.

Lemma lower_idempotent (s : string) : Py.lower (Py.lower s) = Py.lower s.
Proof.
  induction s as [| a s IH]; [reflexivity |].
  cbn [Py.lower]. now rewrite lower_ascii_idempotent, IH.
Qed.

(** X11.  The verb is read without regard to case, and neither the program
    name nor the spelling of the verb reaches the commands: a run behaves as
    the run with any program name and the verb in lower case. *)
Theorem main_ignores_case (prog prog' verb : string) (rest : list string) (p : process) :
  main json_dumps json_loads py_int (prog :: verb :: rest) p =
  main json_dumps json_loads py_int (prog' :: Py.lower verb :: rest) p.
Proof.
  rewrite !main_on_verb, lower_idempotent.
  assert (H : dispatch json_dumps json_loads py_int (Py.lower verb) (prog :: verb :: rest) =
              dispatch json_dumps json_loads py_int (Py.lower verb)
                (prog' :: Py.lower verb :: rest)).
  { unfold dispatch.
    repeat match goal with
           | |- context [String.eqb (Py.lower verb) ?s] =>
               destruct (String.eqb (Py.lower verb) s)
           end; reflexivity. }
  now rewrite H.
Qed.

Lemma send_command_pair (ip : string) (port : Z) (command : value) (w : world) :
  exists result,
    send_command json_dumps json_loads ip port command w =
      (Ok result,
       {| tcp := tcp w;
          calls := calls w ++ [{| c_ip := ip; c_port := port; c_command := command |}];
          udp := udp w |}).
Proof.
  destruct (send_command_never_raises json_dumps json_loads ip port command w)
    as (result & H & _).
  exists result. rewrite <- (send_command_world json_dumps json_loads), <- H.
  now destruct (send_command _ _ _ _ _ _).
Qed.

(** X12.  [on] and [off] issue their relay command without reading the
    state first, then read the state once; the two results are printed with
    exit code 0, whatever the relay command returned, and a state read that
    raises gives the error line and exit code 1. *)
Theorem main_on_off (prog verb ip : string) (p : process) (on : bool) :
  Py.lower verb = (if on then "on" else "off") ->
  exists result w1 fresh w2,
    (if on then turn_on json_dumps json_loads (new_device ip) (p_world p)
     else turn_off json_dumps json_loads (new_device ip) (p_world p)) = (Ok result, w1) /\
    get_state json_dumps json_loads (new_device ip) w1 = (fresh, w2) /\
    calls w2 =
      calls (p_world p) ++ [relay_call ip (if on then 1 else 0); sysinfo_call ip] /\
    main json_dumps json_loads py_int [prog; verb; ip] p =
      match fresh with
      | Ok state =>
          (Next tt,
           {| p_world := w2;
              p_stdout :=
                p_stdout p ++ [json_dumps (VDict [("result", result); ("state", state)])] |})
      | Raise e =>
          (SysExit 1,
           {| p_world := w2;
              p_stdout := p_stdout p ++ [json_dumps (VDict [("error", VStr (str_exn e))])] |})
      end.
Proof.
  intros Hverb.
  destruct (send_command_pair ip 9999
              (cmd "system" "set_relay_state" [("state", VInt (if on then 1 else 0))])
              (p_world p)) as [result Hres].
  set (w1 := {| tcp := tcp (p_world p);
                calls := calls (p_world p) ++
                         [{| c_ip := ip; c_port := 9999;
                             c_command := cmd "system" "set_relay_state"
                                            [("state", VInt (if on then 1 else 0))] |}];
                udp := udp (p_world p) |}) in *.
  destruct (get_state json_dumps json_loads (new_device ip) w1) as [fresh w2] eqn:Efresh.
  pose proof (get_state_world _ _ _ _ _ _ Efresh) as Hw2.
  assert (Hcmd : (if on then turn_on json_dumps json_loads (new_device ip) (p_world p)
                  else turn_off json_dumps json_loads (new_device ip) (p_world p))
                 = (Ok result, w1)).
  { unfold turn_on, turn_off. destruct on; exact Hres. }
  exists result, w1, fresh, w2.
  split; [exact Hcmd |]. split; [exact Efresh |]. split.
  { rewrite Hw2. subst w1. cbn [calls]. now rewrite <- app_assoc. }
  rewrite main_on_verb, Hverb.
  destruct on.
  - change (dispatch json_dumps json_loads py_int "on" [prog; verb; ip])
      with (cmd_on json_dumps json_loads [prog; verb; ip]).
    unfold cmd_on, require_args. cbn [length Nat.ltb Nat.leb].
    unfold arg. cbn [lookup list_lookup].
    unfold cbind, cret, run. cbn [p_world p_stdout]. rewrite Hcmd.
    cbn [p_world p_stdout]. rewrite Efresh. now destruct fresh.
  - change (dispatch json_dumps json_loads py_int "off" [prog; verb; ip])
      with (cmd_off json_dumps json_loads [prog; verb; ip]).
    unfold cmd_off, require_args. cbn [length Nat.ltb Nat.leb].
    unfold arg. cbn [lookup list_lookup].
    unfold cbind, cret, run. cbn [p_world p_stdout]. rewrite Hcmd.
    cbn [p_world p_stdout]. rewrite Efresh. now destruct fresh.
Qed.

(** X13.  [led] turns its argument into the device's inverted flag: "on",
    "1" and "true", in any case, send [off: 0]; every other word sends
    [off: 1].  The result is printed with exit code 0.  Without the state
    argument nothing is sent and the exit code is 1. *)
Theorem main_led (prog verb host : string) (p : process) :
  Py.lower verb = "led" ->
  (forall a,
      exists result,
        main json_dumps json_loads py_int [prog; verb; host; a] p =
          (Next tt,
           {| p_world :=
                {| tcp := tcp (p_world p);
                   calls :=
                     calls (p_world p) ++
                     [{| c_ip := host; c_port := 9999;
                         c_command :=
                           cmd "system" "set_led_off"
                             [("off",
                               VInt (if existsb (String.eqb (Py.lower a))
                                            ["on"; "1"; "true"]
                                     then 0 else 1))] |}];
                   udp := udp (p_world p) |};
              p_stdout := p_stdout p ++ [json_dumps result] |})) /\
  main json_dumps json_loads py_int [prog; verb; host] p =
    (SysExit 1,
     {| p_world := p_world p;
        p_stdout :=
          p_stdout p ++
          [json_dumps (Py.error_dict "IP address and state (on/off) required")] |}).
Proof.
  intros Hverb. split.
  - intros a. rewrite main_on_verb, Hverb.
    change (dispatch json_dumps json_loads py_int "led" [prog; verb; host; a])
      with (cmd_led json_dumps json_loads [prog; verb; host; a]).
    unfold cmd_led, require_args. cbn [length Nat.ltb Nat.leb].
    unfold arg. cbn [lookup list_lookup].
    destruct (send_command_pair host 9999
                (cmd "system" "set_led_off"
                   [("off", VInt (if existsb (String.eqb (Py.lower a)) ["on"; "1"; "true"]
                                  then 0 else 1))])
                (p_world p)) as [result Hres].
    exists result. unfold cbind, cret, run, set_led.
    cbn [p_world p_stdout ip port new_device].
    now rewrite Hres.
  - rewrite main_on_verb, Hverb. reflexivity.
Qed.

(** X14.  [reboot] uses delay 1 when no delay is given and the value of
    [int] otherwise; when [int] raises, no command is sent, the error is
    printed and the exit code is 1. *)
Theorem main_reboot (prog verb host : string) (more : list string) (p : process) :
  Py.lower verb = "reboot" ->
  match (match more with [] => Ok 1%Z | a :: _ => py_int a end) with
  | Ok delay =>
      exists result,
        main json_dumps json_loads py_int (prog :: verb :: host :: more) p =
          (Next tt,
           {| p_world :=
                {| tcp := tcp (p_world p);
                   calls :=
                     calls (p_world p) ++
                     [{| c_ip := host; c_port := 9999;
                         c_command := cmd "system" "reboot" [("delay", VInt delay)] |}];
                   udp := udp (p_world p) |};
              p_stdout := p_stdout p ++ [json_dumps result] |})
  | Raise e =>
      main json_dumps json_loads py_int (prog :: verb :: host :: more) p =
        (SysExit 1,
         {| p_world := p_world p;
            p_stdout := p_stdout p ++ [json_dumps (VDict [("error", VStr (str_exn e))])] |})
  end.
Proof.
  intros Hverb. rewrite main_on_verb, Hverb.
  change (dispatch json_dumps json_loads py_int "reboot" (prog :: verb :: host :: more))
    with (cmd_reboot json_dumps json_loads py_int (prog :: verb :: host :: more)).
  unfold cmd_reboot, require_args. cbn [length Nat.ltb Nat.leb].
  unfold arg. cbn [lookup list_lookup].
  destruct more as [| a more']; cbn [length Nat.ltb Nat.leb lookup list_lookup].
  - destruct (send_command_pair host 9999 (cmd "system" "reboot" [("delay", VInt 1)])
                (p_world p)) as [result Hres].
    exists result. unfold cbind, cret, run, reboot. cbn [p_world p_stdout ip port new_device].
    now rewrite Hres.
  - destruct (py_int a) as [delay | e] eqn:Eint.
    + destruct (send_command_pair host 9999 (cmd "system" "reboot" [("delay", VInt delay)])
                  (p_world p)) as [result Hres].
      exists result. unfold cbind, cret, run, reboot, pure.
      cbn [p_world p_stdout ip port new_device]. rewrite Eint.
      cbn [p_world p_stdout]. now rewrite Hres.
    + unfold cbind, cret, pure. rewrite Eint. reflexivity.
Qed.

Lemma discover_devices_returns (timeout : Q) (env : udp_env) :
  exists devices, discover_devices timeout env = Ok devices.
Proof.
  unfold discover_devices. destruct discovery_frame as [frame ->]. cbn [bind].
  destruct (discover_try timeout env); eauto.
Qed.

(** X15.  [discover] listens for 3 seconds unless a timeout is given, sends
    nothing over TCP, and prints whatever discovery returned under
    "devices" with exit code 0, an error mapping of the discovery included;
    a timeout that [int] rejects gives the error line and exit code 1. *)
Theorem main_discover (prog verb : string) (more : list string) (p : process) :
  Py.lower verb = "discover" ->
  match (match more with [] => Ok 3%Z | a :: _ => py_int a end) with
  | Ok timeout =>
      exists devices,
        discover_devices (inject_Z timeout) (udp (p_world p)) = Ok devices /\
        main json_dumps json_loads py_int (prog :: verb :: more) p =
          (Next tt,
           {| p_world := p_world p;
              p_stdout := p_stdout p ++ [json_dumps (VDict [("devices", devices)])] |})
  | Raise e =>
      main json_dumps json_loads py_int (prog :: verb :: more) p =
        (SysExit 1,
         {| p_world := p_world p;
            p_stdout := p_stdout p ++ [json_dumps (VDict [("error", VStr (str_exn e))])] |})
  end.
Proof.
  intros Hverb. rewrite main_on_verb, Hverb.
  change (dispatch json_dumps json_loads py_int "discover" (prog :: verb :: more))
    with (cmd_discover json_dumps py_int (prog :: verb :: more)).
  unfold cmd_discover. cbn [length Nat.ltb Nat.leb].
  destruct more as [| a more']; cbn [length Nat.ltb Nat.leb].
  - destruct (discover_devices_returns (inject_Z 3) (udp (p_world p))) as [devices Hd].
    exists devices. split; [exact Hd |].
    unfold cbind, cret, pure. rewrite Hd. now destruct p.
  - unfold arg. cbn [lookup list_lookup].
    destruct (py_int a) as [timeout | e] eqn:Eint.
    + destruct (discover_devices_returns (inject_Z timeout) (udp (p_world p)))
        as [devices Hd].
      exists devices. split; [exact Hd |].
      unfold cbind, cret, pure. rewrite Eint, Hd. now destruct p.
    + unfold cbind, cret, pure. rewrite Eint. now destruct p.
Qed.

End CliMore.

Lemma main_on_off_witness :
  exists result w1 fresh w2,
    turn_on Fixture.json_dumps Fixture.json_loads (new_device "10.0.0.2")
      (p_world (Fixture.start (Fixture.plug 0))) = (Ok result, w1) /\
    get_state Fixture.json_dumps Fixture.json_loads (new_device "10.0.0.2") w1 = (fresh, w2) /\
    calls w2 =
      calls (p_world (Fixture.start (Fixture.plug 0))) ++
      [relay_call "10.0.0.2" 1; sysinfo_call "10.0.0.2"] /\
    main Fixture.json_dumps Fixture.json_loads Fixture.py_int
      ["kasa_api.py"; "ON"; "10.0.0.2"] (Fixture.start (Fixture.plug 0)) =
      match fresh with
      | Ok state =>
          (Next tt,
           {| p_world := w2;
              p_stdout :=
                p_stdout (Fixture.start (Fixture.plug 0)) ++
                [Fixture.json_dumps (VDict [("result", result); ("state", state)])] |})
      | Raise e =>
          (SysExit 1,
           {| p_world := w2;
              p_stdout :=
                p_stdout (Fixture.start (Fixture.plug 0)) ++
                [Fixture.json_dumps (VDict [("error", VStr (str_exn e))])] |})
      end.
Proof.
  exact (main_on_off Fixture.json_dumps Fixture.json_loads Fixture.py_int
           "kasa_api.py" "ON" "10.0.0.2" (Fixture.start (Fixture.plug 0)) true eq_refl).
Defined.

Lemma main_led_witness :
  main Fixture.json_dumps Fixture.json_loads Fixture.py_int
    ["kasa_api.py"; "led"; "10.0.0.2"] (Fixture.start (Fixture.plug 0)) =
    (SysExit 1,
     {| p_world := p_world (Fixture.start (Fixture.plug 0));
        p_stdout :=
          p_stdout (Fixture.start (Fixture.plug 0)) ++
          [Fixture.json_dumps (Py.error_dict "IP address and state (on/off) required")] |}).
Proof.
  exact (proj2 (main_led Fixture.json_dumps Fixture.json_loads Fixture.py_int
                  "kasa_api.py" "led" "10.0.0.2" (Fixture.start (Fixture.plug 0)) eq_refl)).
Defined.

Lemma main_reboot_witness :
  main Fixture.json_dumps Fixture.json_loads Fixture.py_int
    ["kasa_api.py"; "reboot"; "10.0.0.2"; "soon"] (Fixture.start (Fixture.plug 0)) =
    (SysExit 1,
     {| p_world := p_world (Fixture.start (Fixture.plug 0));
        p_stdout :=
          p_stdout (Fixture.start (Fixture.plug 0)) ++
          [Fixture.json_dumps
             (VDict [("error", VStr "invalid literal for int() with base 10")])] |}).
Proof.
  exact (main_reboot Fixture.json_dumps Fixture.json_loads Fixture.py_int
           "kasa_api.py" "reboot" "10.0.0.2" ["soon"] (Fixture.start (Fixture.plug 0))
           eq_refl).
Defined.

Lemma main_discover_witness :
  exists devices,
    discover_devices (inject_Z 3) (udp (p_world (Fixture.start (Fixture.plug 0)))) =
      Ok devices /\
    main Fixture.json_dumps Fixture.json_loads Fixture.py_int
      ["kasa_api.py"; "Discover"] (Fixture.start (Fixture.plug 0)) =
      (Next tt,
       {| p_world := p_world (Fixture.start (Fixture.plug 0));
          p_stdout :=
            p_stdout (Fixture.start (Fixture.plug 0)) ++
            [Fixture.json_dumps (VDict [("devices", devices)])] |}).
Proof.
  exact (main_discover Fixture.json_dumps Fixture.json_loads Fixture.py_int
           "kasa_api.py" "Discover" [] (Fixture.start (Fixture.plug 0)) eq_refl).
Defined.

(** ** Discovery, beyond the claims *)

Section DiscoveryMore.

Variables timeout start_time : Q.

(** The set of discovered addresses only grows during the loop. *)
Lemma collect_grows (trace : list (Q * pyresult datagram)) :
  forall discovered, discovered ⊆ collect timeout start_time trace discovered.
Proof.
  induction trace as [| [now r] rest IH]; intros discovered; cbn [collect];
    [set_solver |].
  destruct (Qltb (now - start_time) timeout); [| set_solver].
  destruct r as [[data addr] | e].
  - destruct (50 <? Codec.len data).
    + specialize (IH ({[addr.1]} ∪ discovered)). set_solver.
    + apply IH.
  - destruct (is_socket_timeout e); [apply IH | set_solver].
Qed.

Lemma collect_prefix (pre post : list (Q * pyresult datagram)) :
  forall discovered,
    collect timeout start_time pre discovered ⊆
    collect timeout start_time (pre ++ post) discovered.
Proof.
  induction pre as [| [now r] pre IH]; intros discovered; cbn [app collect].
  - apply collect_grows.
  - destruct (Qltb (now - start_time) timeout); [| set_solver].
    destruct r as [[data addr] | e].
    + destruct (50 <? Codec.len data); apply IH.
    + destruct (is_socket_timeout e); [apply IH | set_solver].
Qed.

(** The first reading of the clock at or past the deadline ends the loop:
    what the trace holds from there on is never received. *)
Lemma collect_deadline (pre rest : list (Q * pyresult datagram)) (now : Q)
    (r : pyresult datagram) :
  Qltb (now - start_time) timeout = false ->
  forall discovered,
    collect timeout start_time (pre ++ (now, r) :: rest) discovered =
    collect timeout start_time pre discovered.
Proof.
  intros Hpast. induction pre as [| [now' r'] pre IH]; intros discovered;
    cbn [app collect].
  - now rewrite Hpast.
  - destruct (Qltb (now' - start_time) timeout); [| reflexivity].
    destruct r' as [[data addr] | e'].
    + destruct (50 <? Codec.len data); apply IH.
    + destruct (is_socket_timeout e'); [apply IH | reflexivity].
Qed.

End DiscoveryMore.

(** X16.  A failing [sock.close()] costs the whole result: with the socket
    set up and any number of devices heard, an exception of the final close
    makes [discover_devices] return the error mapping instead of the list. *)
Theorem discovery_close_failure (timeout : Q) (env : udp_env) (e : exception) :
  socket_ready env ->
  u_close env = Raise e ->
  discover_devices timeout env = Ok (Py.error_dict ("Discovery failed: " +:+ str_exn e)).
Proof.
  intros (Hs & Hb & Hr & Hbind & Ht) Hc.
  unfold discover_devices. destruct discovery_frame as [frame ->]. cbn [bind].
  unfold discover_try. rewrite Hs, Hb, Hr, Ht, Hc. cbn [bind].
  destruct Hbind as [-> | (e' & -> & -> & ->)]; reflexivity.
Qed.

Lemma discovery_close_failure_witness :
  discover_devices 10
    {| u_socket := Ok tt; u_broadcast := Ok tt; u_reuseaddr := Ok tt;
       u_bind_9999 := Ok tt; u_bind_any := Ok tt; u_settimeout := Ok tt;
       u_sendto := fun _ _ => Ok tt; u_start_time := 100%Q;
       u_trace := u_trace (Fixture.listening false);
       u_close := Raise (OSError "Bad file descriptor") |} =
    Ok (Py.error_dict ("Discovery failed: " +:+ "Bad file descriptor")).
Proof.
  apply (discovery_close_failure 10 _ (OSError "Bad file descriptor")).
  - repeat split. now left.
  - reflexivity.
Defined.

(** X17.  The fallback to an arbitrary port is taken for an [OSError] of
    the bind on port 9999 only: another exception of that bind, or an
    exception of the second bind, ends discovery with the error mapping. *)
Theorem discovery_bind_fallback (timeout : Q) (env : udp_env) (e : exception) :
  u_socket env = Ok tt -> u_broadcast env = Ok tt -> u_reuseaddr env = Ok tt ->
  u_bind_9999 env = Raise e ->
  (is_OSError e = false ->
   discover_devices timeout env =
     Ok (Py.error_dict ("Discovery failed: " +:+ str_exn e))) /\
  (is_OSError e = true ->
   forall e', u_bind_any env = Raise e' ->
   discover_devices timeout env =
     Ok (Py.error_dict ("Discovery failed: " +:+ str_exn e'))) /\
  (is_OSError e = true -> u_bind_any env = Ok tt ->
   u_settimeout env = Ok tt -> u_close env = Ok tt ->
   exists l, discover_devices timeout env = Ok (VList l)).
Proof.
  intros Hs Hb Hr Hbind.
  unfold discover_devices. destruct discovery_frame as [frame ->]. cbn [bind].
  unfold discover_try. rewrite Hs, Hb, Hr, Hbind. cbn [bind].
  split; [| split].
  - intros ->. reflexivity.
  - intros -> e' ->. reflexivity.
  - intros -> -> -> ->. cbn [bind]. eexists. reflexivity.
Qed.

Lemma discovery_bind_fallback_witness :
  exists l, discover_devices 10 (Fixture.listening false) = Ok (VList l).
Proof.
  refine (proj2 (proj2 (discovery_bind_fallback 10 (Fixture.listening false)
                          (OSError "Address already in use") _ _ _ _)) _ _ _ _);
    reflexivity.
Defined.

(** X18.  Nothing is received past the deadline: the entries of the trace
    that follow the first reading of the clock at or after
    [start_time + timeout] do not change the list that is returned. *)
Theorem discovery_stops_at_deadline (timeout : Q) (env : udp_env)
    (pre rest : list (Q * pyresult datagram)) (now : Q) (r : pyresult datagram) :
  u_trace env = pre ++ (now, r) :: rest ->
  Qltb (now - u_start_time env) timeout = false ->
  socket_ready env -> u_close env = Ok tt ->
  discover_devices timeout env =
    Ok (VList (VStr <$> elements (collect timeout (u_start_time env) pre ∅))).
Proof.
  intros Htrace Hpast Hr Hc.
  rewrite (discover_devices_ok timeout env Hr Hc), Htrace.
  now rewrite (collect_deadline timeout (u_start_time env) pre rest now r Hpast).
Qed.

Lemma discovery_stops_at_deadline_witness :
  discover_devices 5 (Fixture.listening false) =
    Ok (VList (VStr <$> elements
          (collect 5 100
             [ (101%Q, Ok (Fixture.reply_60, ("192.168.1.50", 9999%Z)));
               (102%Q, Ok (Fixture.echo_29, ("192.168.1.7", 9999%Z)));
               (103%Q, Raise (SocketTimeout "timed out"));
               (104%Q, Ok (Fixture.reply_60, ("192.168.1.50", 9999%Z))) ] ∅))).
Proof.
  refine (discovery_stops_at_deadline 5 (Fixture.listening false) _ []
            106 (Ok (Fixture.reply_60, ("192.168.1.51", 9999%Z))) _ _ _ _).
  - reflexivity.
  - reflexivity.
  - apply socket_ready_listening.
  - reflexivity.
Defined.

(** X19.  With a timeout of zero or less and a clock that does not run
    backwards, the loop body is never entered: discovery returns the empty
    list. *)
Theorem discovery_with_no_time (timeout : Q) (env : udp_env) :
  (timeout <= 0)%Q ->
  (forall now r rest, u_trace env = (now, r) :: rest -> (u_start_time env <= now)%Q) ->
  socket_ready env -> u_close env = Ok tt ->
  discover_devices timeout env = Ok (VList []).
Proof.
  intros Htime Hclock Hr Hc. rewrite (discover_devices_ok timeout env Hr Hc).
  destruct (u_trace env) as [| [now r] rest] eqn:Htrace; cbn [collect].
  - now rewrite elements_empty.
  - specialize (Hclock now r rest eq_refl).
    assert (Hpast : Qltb (now - u_start_time env) timeout = false).
    { unfold Qltb. apply negb_false_iff, Qle_bool_iff.
      apply Qle_trans with (y := 0%Q); [exact Htime |].
      unfold Qminus. now apply -> Qle_minus_iff. }
    rewrite Hpast. now rewrite elements_empty.
Qed.

Lemma discovery_with_no_time_witness :
  discover_devices 0 (Fixture.listening false) = Ok (VList []).
Proof.
  apply discovery_with_no_time.
  - discriminate.
  - intros now r rest H. inversion H; subst. discriminate.
  - apply socket_ready_listening.
  - reflexivity.
Defined.

(** X20.  Listening longer never loses a device: every address returned for
    a trace is also returned for any extension of that trace. *)
Theorem discovery_is_monotone (timeout : Q) (env env' : udp_env)
    (post : list (Q * pyresult datagram)) (l l' : list value) :
  u_start_time env' = u_start_time env ->
  u_trace env' = u_trace env ++ post ->
  discover_devices timeout env = Ok (VList l) ->
  discover_devices timeout env' = Ok (VList l') ->
  forall v, v ∈ l -> v ∈ l'.
Proof.
  intros Hstart Htrace Hl Hl' v Hv.
  apply discover_devices_list in Hl, Hl'. subst l l'.
  rewrite Hstart, Htrace.
  apply list_elem_of_fmap in Hv as (host & -> & Hin).
  apply list_elem_of_fmap. exists host. split; [reflexivity |].
  apply elem_of_elements. apply elem_of_elements in Hin.
  now apply (collect_prefix timeout (u_start_time env) (u_trace env) post ∅).
Qed.

Lemma discovery_is_monotone_witness :
  VStr "192.168.1.50" ∈ [VStr "192.168.1.51"; VStr "192.168.1.50"].
Proof.
  refine (discovery_is_monotone 10
            {| u_socket := Ok tt; u_broadcast := Ok tt; u_reuseaddr := Ok tt;
               u_bind_9999 := Ok tt; u_bind_any := Ok tt; u_settimeout := Ok tt;
               u_sendto := fun _ _ => Ok tt; u_start_time := 100%Q;
               u_trace := [ (101%Q, Ok (Fixture.reply_60, ("192.168.1.50", 9999%Z))) ];
               u_close := Ok tt |}
            {| u_socket := Ok tt; u_broadcast := Ok tt; u_reuseaddr := Ok tt;
               u_bind_9999 := Ok tt; u_bind_any := Ok tt; u_settimeout := Ok tt;
               u_sendto := fun _ _ => Ok tt; u_start_time := 100%Q;
               u_trace := [ (101%Q, Ok (Fixture.reply_60, ("192.168.1.50", 9999%Z)));
                            (106%Q, Ok (Fixture.reply_60, ("192.168.1.51", 9999%Z))) ];
               u_close := Ok tt |}
            [ (106%Q, Ok (Fixture.reply_60, ("192.168.1.51", 9999%Z))) ]
            [VStr "192.168.1.50"] _ _ _ _ _ _ _).
  - reflexivity.
  - reflexivity.
  - vm_compute. reflexivity.
  - vm_compute. reflexivity.
  - apply list_elem_of_here.
Defined.

(** ** scan_network.py: the port check *)

Section ScanFacts.

Import Scan.

Variables (host : string) (port : Z) (timeout : Q).

Lemma discovery_command_encrypts (k : pyresult value) :
  (let! encrypted := Codec.encrypt (pystr_of_string discovery_command) in k) = k.
Proof. destruct discovery_frame as [frame ->]. reflexivity. Qed.

(** X21.  [check_port] never reports a closed port: it returns [None], or
    a mapping with "open" true that echoes the address and is either not
    responding or responding with the length of a reply of more than four
    bytes; and it returns [None] whenever [connect_ex] gives a code other
    than 0. *)
Theorem check_port_reports (k : probe) :
  (check_port host port timeout k = VNone \/
   check_port host port timeout k = not_responding host port \/
   exists data,
     k_recv k = Ok data /\ 4 < Codec.len data /\
     check_port host port timeout k = responding host port data) /\
  (forall code, k_connect_ex k = Ok code -> code <> 0%Z ->
                check_port host port timeout k = VNone).
Proof.
  unfold check_port, check_port_try. split.
  - destruct (k_socket k); [| now left]. cbn [bind].
    destruct (k_settimeout k); [| now left]. cbn [bind].
    destruct (k_connect_ex k) as [code |]; [| now left]. cbn [bind].
    destruct (Z.eqb code 0).
    + rewrite discovery_command_encrypts. unfold talk.
      destruct (k_send k).
      * destruct (k_recv k) as [data |].
        -- destruct (k_close k 0).
           ++ destruct (4 <? Codec.len data) eqn:E.
              ** right. right. exists data. apply N.ltb_lt in E. now repeat split.
              ** right. now left.
           ++ destruct (k_close k 1); [right |]; now left.
        -- destruct (k_close k 0); [right |]; now left.
      * destruct (k_close k 0); [right |]; now left.
    + destruct (k_close k 0); now left.
  - intros code -> Hcode.
    destruct (k_socket k); [| reflexivity]. cbn [bind].
    destruct (k_settimeout k); [| reflexivity]. cbn [bind].
    destruct (Z.eqb_spec code 0) as [-> | _]; [now destruct Hcode |].
    now destruct (k_close k 0).
Qed.

(** X22.  [check_port] reports a responding device exactly when the socket
    was created and configured, [connect_ex] gave 0, the command was sent,
    a reply of more than four bytes was received and the socket was closed
    without an exception. *)
Theorem check_port_responding_iff (k : probe) (data : bytes) :
  k_recv k = Ok data ->
  check_port host port timeout k = responding host port data <->
  k_socket k = Ok tt /\ k_settimeout k = Ok tt /\ k_connect_ex k = Ok 0%Z /\
  k_send k = Ok tt /\ k_close k 0%nat = Ok tt /\ 4 < Codec.len data.
Proof.
  intros Hrecv. unfold check_port, check_port_try. split.
  - destruct (k_socket k) as [[] |]; [| discriminate]. cbn [bind].
    destruct (k_settimeout k) as [[] |]; [| discriminate]. cbn [bind].
    destruct (k_connect_ex k) as [code |]; [| discriminate]. cbn [bind].
    destruct (Z.eqb_spec code 0) as [-> | _].
    + rewrite discovery_command_encrypts. unfold talk. rewrite Hrecv.
      destruct (k_send k) as [[] |].
      * destruct (k_close k 0) as [[] |].
        -- destruct (4 <? Codec.len data) eqn:E; [| discriminate].
           apply N.ltb_lt in E. intros _. now repeat split.
        -- destruct (k_close k 1); discriminate.
      * destruct (k_close k 0); discriminate.
    + destruct (k_close k 0); discriminate.
  - intros (-> & -> & -> & Hsend & Hclose & Hlen). cbn [bind Z.eqb].
    rewrite discovery_command_encrypts. unfold talk.
    rewrite Hsend, Hrecv, Hclose. apply N.ltb_lt in Hlen. now rewrite Hlen.
Qed.

(** X23.  A reply is lost when closing the socket raises: the device is
    reported as not responding when the second close succeeds, and the port
    is not reported at all when the second close raises as well. *)
Theorem check_port_close_failure (k : probe) (data : bytes) (e : exception) :
  k_socket k = Ok tt -> k_settimeout k = Ok tt -> k_connect_ex k = Ok 0%Z ->
  k_send k = Ok tt -> k_recv k = Ok data ->
  k_close k 0%nat = Raise e ->
  check_port host port timeout k =
    match k_close k 1%nat with
    | Ok _ => not_responding host port
    | Raise _ => VNone
    end.
Proof.
  intros Hs Ht Hc Hsend Hrecv Hclose. unfold check_port, check_port_try.
  rewrite Hs, Ht, Hc. cbn [bind Z.eqb].
  rewrite discovery_command_encrypts. unfold talk.
  rewrite Hsend, Hrecv, Hclose. now destruct (k_close k 1).
Qed.

End ScanFacts.

Lemma check_port_responding_iff_witness :
  Scan.check_port "192.168.1.50" 9999 (1 # 2) (Fixture.open_port Fixture.reply_60) =
    Scan.responding "192.168.1.50" 9999 Fixture.reply_60 <->
  Scan.k_socket (Fixture.open_port Fixture.reply_60) = Ok tt /\
  Scan.k_settimeout (Fixture.open_port Fixture.reply_60) = Ok tt /\
  Scan.k_connect_ex (Fixture.open_port Fixture.reply_60) = Ok 0%Z /\
  Scan.k_send (Fixture.open_port Fixture.reply_60) = Ok tt /\
  Scan.k_close (Fixture.open_port Fixture.reply_60) 0%nat = Ok tt /\
  4 < Codec.len Fixture.reply_60.
Proof.
  apply (check_port_responding_iff "192.168.1.50" 9999 (1 # 2)
           (Fixture.open_port Fixture.reply_60) Fixture.reply_60).
  reflexivity.
Defined.

Lemma check_port_close_failure_witness :
  Scan.check_port "192.168.1.50" 9999 (1 # 2)
    {| Scan.k_socket := Ok tt; Scan.k_settimeout := Ok tt; Scan.k_connect_ex := Ok 0%Z;
       Scan.k_send := Ok tt; Scan.k_recv := Ok Fixture.reply_60;
       Scan.k_close := fun n => match n with
                                | O => Raise (OSError "Bad file descriptor")
                                | S _ => Ok tt
                                end |} =
    Scan.not_responding "192.168.1.50" 9999.
Proof.
  refine (check_port_close_failure "192.168.1.50" 9999 (1 # 2) _ Fixture.reply_60
            (OSError "Bad file descriptor") _ _ _ _ _ _); reflexivity.
Defined.

Lemma check_port_reports_witness :
  Scan.check_port "192.168.1.9" 9999 (1 # 2)
    {| Scan.k_socket := Ok tt; Scan.k_settimeout := Ok tt;
       Scan.k_connect_ex := Ok 111%Z;
       Scan.k_send := Ok tt; Scan.k_recv := Ok []; Scan.k_close := fun _ => Ok tt |} = VNone.
Proof.
  refine (proj2 (check_port_reports "192.168.1.9" 9999 (1 # 2) _) 111%Z _ _);
    [reflexivity | discriminate].
Defined.

(** ** get_network_interfaces.py and test_discovery.py: the address helpers *)

Section InterfacesFacts.

Import Interfaces.

Variable py_int : string -> pyresult Z.

Ltac Zify.zify_post_hook ::= Z.to_euclidean_division_equations.

Ltac split_bools :=
  repeat match goal with
         | |- context [Z.eqb ?x ?y] => destruct (Z.eqb_spec x y)
         | |- context [Z.leb ?x ?y] => destruct (Z.leb_spec x y)
         end.

(** X24.  On a dotted quad of octets, [categorize_ip] names the blocks of
    private and special addresses exactly: 10.0.0.0/8, 172.16.0.0/12,
    192.168.0.0/16, 100.64.0.0/10 and 169.254.0.0/16, and "unknown" outside
    of them. *)
Theorem categorize_ip_blocks (ip : string) (a b c d : Z) :
  ints py_int (split_on "." ip) = Ok [a; b; c; d] ->
  (0 <= a <= 255)%Z -> (0 <= b <= 255)%Z -> (0 <= c <= 255)%Z -> (0 <= d <= 255)%Z ->
  exists category description,
    categorize_ip py_int ip = Ok (category, description) /\
    (category = "private_10" <-> in_block (address a b c d) (address 10 0 0 0) 8) /\
    (category = "private_172" <-> in_block (address a b c d) (address 172 16 0 0) 12) /\
    (category = "private_192" <-> in_block (address a b c d) (address 192 168 0 0) 16) /\
    (category = "cgnat_vpn" <-> in_block (address a b c d) (address 100 64 0 0) 10) /\
    (category = "link_local" <-> in_block (address a b c d) (address 169 254 0 0) 16) /\
    (category = "unknown" <->
     ~ in_block (address a b c d) (address 10 0 0 0) 8 /\
     ~ in_block (address a b c d) (address 172 16 0 0) 12 /\
     ~ in_block (address a b c d) (address 192 168 0 0) 16 /\
     ~ in_block (address a b c d) (address 100 64 0 0) 10 /\
     ~ in_block (address a b c d) (address 169 254 0 0) 16).
Proof.
  intros Hparse Ha Hb Hc Hd. unfold categorize_ip. rewrite Hparse.
  unfold index. cbn [bind lookup list_lookup].
  unfold in_block, address.
  change (2 ^ (32 - 8))%Z with 16777216%Z. change (2 ^ (32 - 12))%Z with 1048576%Z.
  change (2 ^ (32 - 16))%Z with 65536%Z. change (2 ^ (32 - 10))%Z with 4194304%Z.
  split_bools; cbn [bind andb]; eexists _, _; (split; [reflexivity |]);
    repeat split; try discriminate; try (intros; exfalso; lia); try lia;
    try (intros _; lia).
Qed.

(** X25.  [is_vpn_ip] agrees with [categorize_ip]: whenever the latter
    returns a category, the former returns whether that category is
    "cgnat_vpn". *)
Theorem is_vpn_ip_agrees (ip category description : string) :
  categorize_ip py_int ip = Ok (category, description) ->
  is_vpn_ip py_int ip = Ok (String.eqb category "cgnat_vpn").
Proof.
  unfold categorize_ip, is_vpn_ip.
  destruct (ints py_int (split_on "." ip)) as [parts |]; [| discriminate]. cbn [bind].
  destruct (index parts 0) as [p0 |]; [| discriminate]. cbn [bind].
  destruct (Z.eqb_spec p0 10) as [-> | H10]; [intros [= <- <-]; reflexivity |].
  destruct (Z.eqb_spec p0 172) as [-> | H172].
  { destruct (index parts 1) as [p1 |]; [| discriminate]. cbn [bind Z.eqb].
    destruct (Z.leb 16 p1 && Z.leb p1 31)%bool; intros [= <- <-]; reflexivity. }
  cbn [bind].
  destruct (Z.eqb_spec p0 192) as [-> | H192].
  { destruct (index parts 1) as [p1 |]; [| discriminate]. cbn [bind Z.eqb].
    destruct (Z.eqb p1 168); intros [= <- <-]; reflexivity. }
  cbn [bind].
  destruct (Z.eqb_spec p0 100) as [-> | H100].
  { destruct (index parts 1) as [p1 |]; [| discriminate]. cbn [bind Z.eqb].
    destruct (Z.leb 64 p1 && Z.leb p1 127)%bool; intros [= <- <-]; reflexivity. }
  cbn [bind].
  destruct (Z.eqb_spec p0 169) as [-> | H169].
  { destruct (index parts 1) as [p1 |]; [| discriminate]. cbn [bind].
    destruct (Z.eqb p1 254); intros [= <- <-]; reflexivity. }
  cbn [bind]. intros [= <- <-]. reflexivity.
Qed.

(** X26.  [categorize_ip] does not check that there are four octets: a text
    whose first part is 10 is "private_10" whatever follows, and a text
    made of the single number 172, 192, 100 or 169 raises, because its
    second part is asked for. *)
Theorem categorize_ip_unchecked (ip : string) (p0 : Z) (others : list Z) :
  ints py_int (split_on "." ip) = Ok (p0 :: others) ->
  (p0 = 10%Z ->
   categorize_ip py_int ip = Ok ("private_10", "Private network (10.x.x.x)")) /\
  (others = [] ->
   (p0 = 172 \/ p0 = 192 \/ p0 = 100 \/ p0 = 169)%Z ->
   categorize_ip py_int ip = Raise (OtherError "list index out of range")).
Proof.
  intros Hparse. unfold categorize_ip. rewrite Hparse.
  unfold index. cbn [bind lookup list_lookup]. split.
  - intros ->. reflexivity.
  - intros -> [-> | [-> | [-> | ->]]]; reflexivity.
Qed.

End InterfacesFacts.

Lemma categorize_ip_blocks_witness :
  exists category description,
    Interfaces.categorize_ip Fixture.int_of_digits "172.20.1.9" = Ok (category, description) /\
    (category = "private_10" <->
     Interfaces.in_block (Interfaces.address 172 20 1 9) (Interfaces.address 10 0 0 0) 8) /\
    (category = "private_172" <->
     Interfaces.in_block (Interfaces.address 172 20 1 9) (Interfaces.address 172 16 0 0) 12) /\
    (category = "private_192" <->
     Interfaces.in_block (Interfaces.address 172 20 1 9) (Interfaces.address 192 168 0 0) 16) /\
    (category = "cgnat_vpn" <->
     Interfaces.in_block (Interfaces.address 172 20 1 9) (Interfaces.address 100 64 0 0) 10) /\
    (category = "link_local" <->
     Interfaces.in_block (Interfaces.address 172 20 1 9) (Interfaces.address 169 254 0 0) 16) /\
    (category = "unknown" <->
     ~ Interfaces.in_block (Interfaces.address 172 20 1 9) (Interfaces.address 10 0 0 0) 8 /\
     ~ Interfaces.in_block (Interfaces.address 172 20 1 9) (Interfaces.address 172 16 0 0) 12 /\
     ~ Interfaces.in_block (Interfaces.address 172 20 1 9) (Interfaces.address 192 168 0 0) 16 /\
     ~ Interfaces.in_block (Interfaces.address 172 20 1 9) (Interfaces.address 100 64 0 0) 10 /\
     ~ Interfaces.in_block (Interfaces.address 172 20 1 9) (Interfaces.address 169 254 0 0) 16).
Proof.
  apply (categorize_ip_blocks Fixture.int_of_digits "172.20.1.9" 172 20 1 9);
    [reflexivity | lia ..].
Defined.

Lemma is_vpn_ip_agrees_witness :
  Interfaces.is_vpn_ip Fixture.int_of_digits "100.101.5.6" =
    Ok (String.eqb "cgnat_vpn" "cgnat_vpn").
Proof.
  apply (is_vpn_ip_agrees Fixture.int_of_digits "100.101.5.6" "cgnat_vpn"
           "CGNAT/VPN (likely Tailscale/ZeroTier)").
  reflexivity.
Defined.

Lemma categorize_ip_unchecked_witness :
  Interfaces.categorize_ip Fixture.int_of_digits "10.999" =
    Ok ("private_10", "Private network (10.x.x.x)").
Proof.
  refine (proj1 (categorize_ip_unchecked Fixture.int_of_digits "10.999" 10 [999%Z] _) _);
    reflexivity.
Defined.

(** X27.  [get_local_interfaces] fails only when the host name cannot be
    read.  Otherwise it returns a list that holds the address of the
    connected socket whenever that lookup succeeded; every other entry is an
    address of [getaddrinfo] without a colon and different from 127.0.0.1;
    and the list is empty when both lookups fail. *)
Theorem get_local_interfaces_result (h : Interfaces.host) :
  (forall e, Interfaces.h_gethostname h = Raise e ->
             Interfaces.get_local_interfaces h = Raise e) /\
  (forall name, Interfaces.h_gethostname h = Ok name ->
     exists l,
       Interfaces.get_local_interfaces h = Ok l /\
       (forall local, Interfaces.connect_trick h = Ok local -> local ∈ l) /\
       (forall ip, ip ∈ l ->
          Interfaces.connect_trick h = Ok ip \/
          exists addrs,
            Interfaces.h_getaddrinfo h = Ok addrs /\ ip ∈ addrs /\
            Interfaces.has_char ":" ip = false /\ ip <> "127.0.0.1") /\
       ((exists e, Interfaces.h_getaddrinfo h = Raise e) ->
        (exists e, Interfaces.connect_trick h = Raise e) -> l = [])).
Proof.
  unfold Interfaces.get_local_interfaces. split.
  - intros e ->. reflexivity.
  - intros name ->. cbn [bind].
    set (found := match Interfaces.h_getaddrinfo h with
                  | Ok addrs => filter _ addrs
                  | Raise _ => []
                  end).
    assert (Hfound : forall ip, ip ∈ found ->
              exists addrs,
                Interfaces.h_getaddrinfo h = Ok addrs /\ ip ∈ addrs /\
                Interfaces.has_char ":" ip = false /\ ip <> "127.0.0.1").
    { intros ip Hin. subst found.
      destruct (Interfaces.h_getaddrinfo h) as [addrs |]; [| inversion Hin].
      apply list_elem_of_filter in Hin as [Hkeep Hin].
      exists addrs. split; [reflexivity |]. split; [exact Hin |].
      apply Is_true_true, andb_true_iff in Hkeep as [Hcolon Hloop].
      apply negb_true_iff in Hcolon, Hloop.
      split; [exact Hcolon | now apply String.eqb_neq]. }
    destruct (Interfaces.connect_trick h) as [local | e].
    + destruct (existsb (String.eqb local) found) eqn:Eseen.
      * exists found. split; [reflexivity |]. split; [| split].
        -- intros ? [= <-]. apply existsb_exists in Eseen as (x & Hx & Heq).
           apply String.eqb_eq in Heq. subst x. now apply list_elem_of_In.
        -- intros ip Hin. right. now apply Hfound.
        -- intros _ [e He]. discriminate He.
      * exists (found ++ [local]). split; [reflexivity |]. split; [| split].
        -- intros ? [= <-]. apply elem_of_app. right. apply list_elem_of_here.
        -- intros ip Hin. apply elem_of_app in Hin as [Hin | Hin].
           ++ right. now apply Hfound.
           ++ apply list_elem_of_singleton in Hin. subst. now left.
        -- intros _ [e He]. discriminate He.
    + exists found. split; [reflexivity |]. split; [| split].
      * intros local H. discriminate H.
      * intros ip Hin. right. now apply Hfound.
      * intros [e' He'] _. subst found. now rewrite He'.
Qed.

Lemma get_local_interfaces_result_witness :
  exists l,
    Interfaces.get_local_interfaces Fixture.laptop = Ok l /\
    (forall local, Interfaces.connect_trick Fixture.laptop = Ok local -> local ∈ l) /\
    (forall ip, ip ∈ l ->
       Interfaces.connect_trick Fixture.laptop = Ok ip \/
       exists addrs,
         Interfaces.h_getaddrinfo Fixture.laptop = Ok addrs /\ ip ∈ addrs /\
         Interfaces.has_char ":" ip = false /\ ip <> "127.0.0.1") /\
    ((exists e, Interfaces.h_getaddrinfo Fixture.laptop = Raise e) ->
     (exists e, Interfaces.connect_trick Fixture.laptop = Raise e) -> l = []).
Proof.
  apply (proj2 (get_local_interfaces_result Fixture.laptop) "laptop"). reflexivity.
Defined.
